(** * Seat inventory and waiting list of the railway reservation system

    A shallow embedding of [data_structures.py], of the tables of
    [database.py] that the booking logic touches, and of the booking,
    cancellation and train-update handlers of [server.py] and
    [terminal_app.py], followed by the properties of the allocation engine.

    Conventions.
    - SQLite integers and Python ints are unbounded here: they are [Z].
    - A table is the list of its rows in insertion order.  A [SELECT ...]
      followed by [fetchone()] is the first matching row, an [UPDATE] or
      [DELETE] acts on every matching row.
    - A handler is a function from the state before the call to a result and
      the state after it.  The durable part of the state only changes when the
      handler reaches [conn.commit()]; a handler that raises leaves the tables
      as they were (the open transaction is rolled back with the connection),
      but keeps the changes it already made to the in-memory structures.
    - [generate_pnr()] draws ten random characters; the drawn string is an
      argument of the handler that calls it. *)

From stdpp Require Import base gmap strings.
From Stdlib Require Import ZArith List Lia Bool.
Import ListNotations.

Local Open Scope Z_scope.

(** ** data_structures.py *)

(** [LinkedList]: the chain of nodes from [head] is the list of their [data]. *)
Module LinkedList.
Section Ops.
Context {A K : Type}.

Definition insert_at_end (l : list A) (data : A) : list A := l ++ [data].

Fixpoint search (l : list A) (key : K) (compare_func : A -> K -> bool) : option A :=
  match l with
  | [] => None
  | data :: next => if compare_func data key then Some data else search next key compare_func
  end.

(** Unlinks the first node that matches; the boolean says whether one did. *)
Fixpoint delete_by_value (l : list A) (key : K) (compare_func : A -> K -> bool)
  : list A * bool :=
  match l with
  | [] => ([], false)
  | data :: next =>
      if compare_func data key then (next, true)
      else let '(next', found) := delete_by_value next key compare_func in
           (data :: next', found)
  end.

(** Replaces the data of the first node that matches. *)
Fixpoint update (l : list A) (key : K) (new_data : A) (compare_func : A -> K -> bool)
  : list A * bool :=
  match l with
  | [] => ([], false)
  | data :: next =>
      if compare_func data key then (new_data :: next, true)
      else let '(next', found) := update next key new_data compare_func in
           (data :: next', found)
  end.

Definition get_all (l : list A) : list A := l.
End Ops.
End LinkedList.

(** [Queue]: [items] with the front of the queue at index 0. *)
Module Queue.
Section Ops.
Context {A : Type}.

Definition is_empty (items : list A) : bool :=
  Nat.eqb (length items) 0.

Definition size (items : list A) : Z := Z.of_nat (length items).

Definition enqueue (items : list A) (item : A) : list A := items ++ [item].

(** [items.pop(0)] when the queue is not empty, [None] otherwise. *)
Definition dequeue (items : list A) : option A * list A :=
  if is_empty items then (None, items)
  else match items with
       | item :: rest => (Some item, rest)
       | [] => (None, items)
       end.

Definition peek (items : list A) : option A :=
  if is_empty items then None else hd_error items.

Definition get_all (items : list A) : list A := items.
End Ops.
End Queue.

(** ** database.py: the rows of the tables *)

(** The four passenger columns shared by [bookings] and [waiting_list]. *)
Record passenger := {
  passenger_name : string;
  passenger_age : Z;
  passenger_gender : string;
  passenger_phone : string
}.

(** A row of [trains].  Of the descriptive columns only [train_number]
    (declared UNIQUE) and [train_name] are kept; [source], [destination],
    [fare], [departure_time] and [arrival_time] are carried along by the
    program exactly like [train_name] and never read by the seat logic. *)
Record train := {
  t_id : Z;
  train_number : string;
  train_name : string;
  total_seats : Z;
  available_seats : Z
}.

(** The two values the program ever writes to [booking_status]. *)
Inductive status := confirmed | cancelled.

Definition status_eqb (a b : status) : bool :=
  match a, b with
  | confirmed, confirmed | cancelled, cancelled => true
  | _, _ => false
  end.

(** A row of [bookings] ([pnr] is declared UNIQUE). *)
Record booking := {
  pnr : string;
  b_user_id : Z;
  b_train_id : Z;
  b_passenger : passenger;
  seat_number : Z;
  booking_status : status
}.

(** A row of [waiting_list]. *)
Record waiting := {
  w_train_id : Z;
  w_user_id : Z;
  w_passenger : passenger;
  position : Z
}.

(** The durable state.  [trains_seq] is the AUTOINCREMENT counter of
    [trains]: the largest id ever handed out. *)
Record database := {
  trains : list train;
  trains_seq : Z;
  bookings : list booking;
  waiting_list : list waiting
}.

Definition empty_database : database :=
  {| trains := []; trains_seq := 0; bookings := []; waiting_list := [] |}.

(** ** The SQL statements the handlers execute *)

Module Sql.

Definition set_available (t : train) (n : Z) : train :=
  {| t_id := t_id t; train_number := train_number t; train_name := train_name t;
     total_seats := total_seats t; available_seats := n |}.

Definition set_status (b : booking) (st : status) : booking :=
  {| pnr := pnr b; b_user_id := b_user_id b; b_train_id := b_train_id b;
     b_passenger := b_passenger b; seat_number := seat_number b;
     booking_status := st |}.

Definition set_position (w : waiting) (p : Z) : waiting :=
  {| w_train_id := w_train_id w; w_user_id := w_user_id w;
     w_passenger := w_passenger w; position := p |}.

Definition with_trains (d : database) (ts : list train) : database :=
  {| trains := ts; trains_seq := trains_seq d; bookings := bookings d;
     waiting_list := waiting_list d |}.

Definition with_bookings (d : database) (bs : list booking) : database :=
  {| trains := trains d; trains_seq := trains_seq d; bookings := bs;
     waiting_list := waiting_list d |}.

Definition with_waiting_list (d : database) (ws : list waiting) : database :=
  {| trains := trains d; trains_seq := trains_seq d; bookings := bookings d;
     waiting_list := ws |}.

(** [SELECT * FROM trains WHERE id = ?], [fetchone()]. *)
Definition select_train (tid : Z) (d : database) : option train :=
  List.find (fun t => t_id t =? tid) (trains d).

(** [SELECT * FROM bookings WHERE pnr = ?], [fetchone()]. *)
Definition select_booking (p : string) (d : database) : option booking :=
  List.find (fun b => String.eqb (pnr b) p) (bookings d).

(** [SELECT * FROM bookings WHERE pnr = ? AND user_id = ?], [fetchone()]. *)
Definition select_booking_of (p : string) (uid : Z) (d : database) : option booking :=
  List.find (fun b => String.eqb (pnr b) p && (b_user_id b =? uid)) (bookings d).

Definition pnr_taken (p : string) (d : database) : bool :=
  existsb (fun b => String.eqb (pnr b) p) (bookings d).

Definition train_number_taken (n : string) (d : database) : bool :=
  existsb (fun t => String.eqb (train_number t) n) (trains d).

(** [INSERT INTO bookings ...]; [None] is the [sqlite3.IntegrityError] of
    the UNIQUE constraint on [pnr]. *)
Definition insert_booking (b : booking) (d : database) : option database :=
  if pnr_taken (pnr b) d then None
  else Some (with_bookings d (bookings d ++ [b])).

(** [INSERT INTO trains ...]: the new row takes the next id; [None] is the
    [sqlite3.IntegrityError] of the UNIQUE constraint on [train_number]. *)
Definition insert_train (number name : string) (total available : Z) (d : database)
  : option (Z * database) :=
  if train_number_taken number d then None
  else
    let lastrowid := trains_seq d + 1 in
    Some (lastrowid,
          {| trains := trains d ++ [ {| t_id := lastrowid; train_number := number;
                                        train_name := name; total_seats := total;
                                        available_seats := available |} ];
             trains_seq := lastrowid;
             bookings := bookings d;
             waiting_list := waiting_list d |}).

(** [UPDATE trains SET available_seats = available_seats + ? WHERE id = ?]
    (with [delta = -1] for [available_seats - 1]). *)
Definition add_available (tid delta : Z) (d : database) : database :=
  with_trains d
    (map (fun t => if t_id t =? tid
                   then set_available t (available_seats t + delta) else t)
         (trains d)).

(** [UPDATE bookings SET booking_status = 'cancelled' WHERE pnr = ?]. *)
Definition cancel_status (p : string) (d : database) : database :=
  with_bookings d
    (map (fun b => if String.eqb (pnr b) p then set_status b cancelled else b)
         (bookings d)).

(** [INSERT INTO waiting_list ...]. *)
Definition insert_waiting (w : waiting) (d : database) : database :=
  with_waiting_list d (waiting_list d ++ [w]).

(** [DELETE FROM waiting_list WHERE train_id = ? AND position = 1]. *)
Definition delete_first_waiting (tid : Z) (d : database) : database :=
  with_waiting_list d
    (List.filter (fun w => negb ((w_train_id w =? tid) && (position w =? 1)))
                 (waiting_list d)).

(** [UPDATE waiting_list SET position = position - 1 WHERE train_id = ?]. *)
Definition shift_waiting (tid : Z) (d : database) : database :=
  with_waiting_list d
    (map (fun w => if w_train_id w =? tid then set_position w (position w - 1) else w)
         (waiting_list d)).

(** The waiting list of one train, as
    [SELECT * FROM waiting_list WHERE train_id = ?] returns it. *)
Definition waiting_of (tid : Z) (d : database) : list waiting :=
  List.filter (fun w => w_train_id w =? tid) (waiting_list d).

(** The confirmed bookings of one train. *)
Definition is_active (tid : Z) (b : booking) : bool :=
  (b_train_id b =? tid) && status_eqb (booking_status b) confirmed.

Definition active_of (tid : Z) (d : database) : list booking :=
  List.filter (is_active tid) (bookings d).

End Sql.

(** ** What a handler returns *)

(** Exceptions that no handler catches. *)
Inductive exception := TypeError | KeyError | IntegrityError.

Inductive result (A : Type) : Type :=
| Ok (a : A)
| HTTPException (status_code : Z) (detail : string)
| Unhandled (e : exception).
Arguments Ok {A} a.
Arguments HTTPException {A} status_code detail.
Arguments Unhandled {A} e.

(** The body of a successful booking response: ["status": "confirmed"] with
    its PNR and seat, or ["status": "waiting"] with its position. *)
Inductive booking_response :=
| Confirmed (pnr : string) (seat_number : Z)
| Waiting (position : Z).

(** A successful cancellation: the message names the PNR of the promoted
    passenger when there is one. *)
Inductive cancel_response :=
| Cancelled
| CancelledPromoted (new_pnr : string).

(** The message of a successful train update. *)
Inductive update_response := NoUpdatesProvided | TrainUpdated.

(** ** server.py *)

Module Server.
Import Sql.

(** The payload of a decoded token: [current_user]. *)
Record token := { user_id : Z; role : string }.

(** The dictionary [create_booking] puts into a waiting queue, with the
    keys [cancel_booking] reads back. *)
Record waiting_data := {
  wd_user_id : Z;
  wd_passenger : passenger;
  wd_position : Z
}.

(** A value of [passenger_cache]. *)
Record cache_entry := { c_passenger : passenger; c_train_id : Z; c_seat : Z }.

(** The durable tables and the three module-level structures:
    [trains_linked_list], [waiting_queues] and [passenger_cache]. *)
Record state := {
  db : database;
  trains_linked_list : list train;
  waiting_queues : gmap Z (list waiting_data);
  passenger_cache : gmap string cache_entry
}.

Definition initial_state : state :=
  {| db := empty_database; trains_linked_list := [];
     waiting_queues := ∅; passenger_cache := ∅ |}.

Record TrainCreate := {
  tc_train_number : string;
  tc_train_name : string;
  tc_total_seats : Z
}.

Record TrainUpdate := {
  tu_train_name : option string;
  tu_total_seats : option Z
}.

Record BookingCreate := { train_id : Z; bc_passenger : passenger }.

(** [lambda t, tid: t['id'] == tid] *)
Definition by_id (t : train) (tid : Z) : bool := t_id t =? tid.

Definition is_admin (u : token) : bool := String.eqb (role u) "admin".

(** The queue of a train, empty when the train has no key in
    [waiting_queues]. *)
Definition queue_of (tid : Z) (s : state) : list waiting_data :=
  default [] (waiting_queues s !! tid).

(** [POST /trains] *)
Definition create_train (t : TrainCreate) (current_user : token) (s : state)
  : result Z * state :=
  if negb (is_admin current_user) then (HTTPException 403 "Admin access required", s)
  else
    match insert_train (tc_train_number t) (tc_train_name t)
                       (tc_total_seats t) (tc_total_seats t) (db s) with
    | None => (HTTPException 400 "Train number already exists", s)
    | Some (new_id, d) =>
        let train_dict :=
          {| t_id := new_id; train_number := tc_train_number t;
             train_name := tc_train_name t; total_seats := tc_total_seats t;
             available_seats := tc_total_seats t |} in
        (Ok new_id,
         {| db := d;
            trains_linked_list := LinkedList.insert_at_end (trains_linked_list s) train_dict;
            waiting_queues := <[new_id := []]> (waiting_queues s);
            passenger_cache := passenger_cache s |})
    end.

(** [PUT /trains/{train_id}].  A field of the update is applied when it is
    truthy: a string that is not empty, a number that is not zero.  The
    statement built for [total_seats] also adds the difference to
    [available_seats].  The linked list is not touched. *)
Definition update_train (tid : Z) (train_update : TrainUpdate)
                        (current_user : token) (s : state)
  : result update_response * state :=
  if negb (is_admin current_user) then (HTTPException 403 "Admin access required", s)
  else
    match select_train tid (db s) with
    | None => (HTTPException 404 "Train not found", s)
    | Some current_train =>
        let name_update :=
          match tu_train_name train_update with
          | Some n => if String.eqb n "" then None else Some n
          | None => None
          end in
        let seats_update :=
          match tu_total_seats train_update with
          | Some n => if n =? 0 then None else Some (n, n - total_seats current_train)
          | None => None
          end in
        match name_update, seats_update with
        | None, None => (Ok NoUpdatesProvided, s)
        | _, _ =>
            let set (t : train) : train :=
              {| t_id := t_id t;
                 train_number := train_number t;
                 train_name := match name_update with
                               | Some n => n | None => train_name t end;
                 total_seats := match seats_update with
                                | Some (n, _) => n | None => total_seats t end;
                 available_seats := match seats_update with
                                    | Some (_, seat_diff) => available_seats t + seat_diff
                                    | None => available_seats t end |} in
            (Ok TrainUpdated,
             {| db := with_trains (db s)
                        (map (fun t => if t_id t =? tid then set t else t) (trains (db s)));
                trains_linked_list := trains_linked_list s;
                waiting_queues := waiting_queues s;
                passenger_cache := passenger_cache s |})
        end
    end.

(** [POST /bookings].  [pnr] is what [generate_pnr()] returns when the
    confirmed branch calls it. *)
Definition create_booking (booking : BookingCreate) (current_user : token)
                          (pnr : string) (s : state)
  : result booking_response * state :=
  let tid := train_id booking in
  match LinkedList.search (trains_linked_list s) tid by_id with
  | None => (HTTPException 404 "Train not found in LinkedList", s)
  | Some train =>
      match select_train tid (db s) with
      | None => (Unhandled TypeError, s)
      | Some train_db =>
          if 0 <? available_seats train_db then
            let seat_number := total_seats train_db - available_seats train_db + 1 in
            match insert_booking
                    {| pnr := pnr; b_user_id := user_id current_user; b_train_id := tid;
                       b_passenger := bc_passenger booking; seat_number := seat_number;
                       booking_status := confirmed |} (db s) with
            | None => (Unhandled IntegrityError, s)
            | Some d =>
                let train' := set_available train (available_seats train - 1) in
                (Ok (Confirmed pnr seat_number),
                 {| db := add_available tid (-1) d;
                    trains_linked_list :=
                      fst (LinkedList.update (trains_linked_list s) tid train' by_id);
                    waiting_queues := waiting_queues s;
                    passenger_cache :=
                      <[pnr := {| c_passenger := bc_passenger booking;
                                  c_train_id := tid; c_seat := seat_number |}]>
                        (passenger_cache s) |})
            end
          else
            let queue := queue_of tid s in
            let position := Queue.size queue + 1 in
            let waiting_data :=
              {| wd_user_id := user_id current_user;
                 wd_passenger := bc_passenger booking;
                 wd_position := position |} in
            (Ok (Waiting position),
             {| db := insert_waiting
                        {| w_train_id := tid; w_user_id := user_id current_user;
                           w_passenger := bc_passenger booking; position := position |}
                        (db s);
                trains_linked_list := trains_linked_list s;
                waiting_queues := <[tid := Queue.enqueue queue waiting_data]> (waiting_queues s);
                passenger_cache := passenger_cache s |})
      end
  end.

(** The [else] branch of [cancel_booking]: no waiting passenger, the seat
    goes back to the train, in the table and in the linked list. *)
Definition release_seat (tid : Z) (d : database) (cache : gmap string cache_entry)
                        (s : state) : state :=
  {| db := add_available tid 1 d;
     trains_linked_list :=
       match LinkedList.search (trains_linked_list s) tid by_id with
       | Some train =>
           fst (LinkedList.update (trains_linked_list s) tid
                  (set_available train (available_seats train + 1)) by_id)
       | None => trains_linked_list s
       end;
     waiting_queues := waiting_queues s;
     passenger_cache := cache |}.

(** [DELETE /bookings/{pnr}].  [new_pnr] is what [generate_pnr()] returns
    when the promotion branch calls it. *)
Definition cancel_booking (pnr : string) (current_user : token)
                          (new_pnr : string) (s : state)
  : result cancel_response * state :=
  match select_booking pnr (db s) with
  | None => (HTTPException 404 "Booking not found", s)
  | Some booking =>
      if negb (b_user_id booking =? user_id current_user) && negb (is_admin current_user)
      then (HTTPException 403 "Not authorized to cancel this booking", s)
      else if status_eqb (booking_status booking) cancelled
      then (HTTPException 400 "Booking already cancelled", s)
      else
        let d := cancel_status pnr (db s) in
        let cache := delete pnr (passenger_cache s) in
        let tid := b_train_id booking in
        match waiting_queues s !! tid with
        | None => (Ok Cancelled, release_seat tid d cache s)
        | Some queue =>
            if Queue.is_empty queue then (Ok Cancelled, release_seat tid d cache s)
            else
              match Queue.dequeue queue with
              | (None, _) => (Unhandled TypeError, s)
              | (Some waiting_passenger, rest) =>
                  let queues := <[tid := rest]> (waiting_queues s) in
                  match insert_booking
                          {| pnr := new_pnr;
                             b_user_id := wd_user_id waiting_passenger;
                             b_train_id := tid;
                             b_passenger := wd_passenger waiting_passenger;
                             seat_number := seat_number booking;
                             booking_status := confirmed |} d with
                  | None =>
                      (Unhandled IntegrityError,
                       {| db := db s;
                          trains_linked_list := trains_linked_list s;
                          waiting_queues := queues;
                          passenger_cache := cache |})
                  | Some d' =>
                      (Ok (CancelledPromoted new_pnr),
                       {| db := shift_waiting tid (delete_first_waiting tid d');
                          trains_linked_list := trains_linked_list s;
                          waiting_queues := queues;
                          passenger_cache :=
                            <[new_pnr := {| c_passenger := wd_passenger waiting_passenger;
                                            c_train_id := tid;
                                            c_seat := seat_number booking |}]> cache |})
                  end
              end
        end
  end.

End Server.

(** ** terminal_app.py: [RailwayTerminal] *)

Module Terminal.
Import Sql.

(** The row of [users] kept in [self.current_user] after a login. *)
Record user := { u_id : Z; u_role : string }.

(** The dictionary [book_ticket] puts into a waiting queue. *)
Record waiting_data := {
  wd_train_id : Z;
  wd_passenger : passenger;
  wd_position : Z
}.

(** The tables, [self.trains_list] and [self.waiting_queues]. *)
Record state := {
  db : database;
  trains_list : list train;
  waiting_queues : gmap Z (list waiting_data)
}.

(** What the two methods print. *)
Inductive book_output :=
| NoTrainsAvailable
| InvalidSelection
| TicketConfirmed (pnr : string) (seat_number : Z)
| AddedToWaitingList (position : Z).

Inductive cancel_output :=
| NotFoundOrNotAuthorized
| AlreadyCancelled
| PassengerPromoted (new_pnr : string)
| TicketCancelled
| NothingPrinted.

Definition by_id (t : train) (tid : Z) : bool := t_id t =? tid.

(** [ORDER BY train_id, position] *)
Definition ordered_before (a b : waiting) : bool :=
  (w_train_id a <? w_train_id b)
  || ((w_train_id a =? w_train_id b) && (position a <=? position b)).

Fixpoint insert_ordered (w : waiting) (l : list waiting) : list waiting :=
  match l with
  | [] => [w]
  | x :: xs => if ordered_before w x then w :: l else x :: insert_ordered w xs
  end.

Definition order_by_train_position (l : list waiting) : list waiting :=
  fold_right insert_ordered [] l.

(** [load_data], run by [__init__] on an empty list and an empty dictionary:
    every train goes to the end of the list and gets an empty queue, then
    every row of [waiting_list] whose train has a queue is enqueued, in the
    order of the query.  Of the row only the keys the program reads later
    are kept in [waiting_data]. *)
Definition load_data (d : database) : state :=
  let with_trains :=
    fold_left
      (fun acc t => (LinkedList.insert_at_end (fst acc) t, <[t_id t := []]> (snd acc)))
      (trains d) ([], ∅) in
  let queues :=
    fold_left
      (fun (qs : gmap Z (list waiting_data)) w =>
         match qs !! w_train_id w with
         | Some queue =>
             <[w_train_id w :=
                 Queue.enqueue queue
                   {| wd_train_id := w_train_id w; wd_passenger := w_passenger w;
                      wd_position := position w |}]> qs
         | None => qs
         end)
      (order_by_train_position (waiting_list d)) (snd with_trains) in
  {| db := d; trains_list := fst with_trains; waiting_queues := queues |}.

(** [book_ticket], with what it reads from the keyboard as arguments:
    [choice] is the number typed at the train menu and [p] the passenger
    details.  The selected [train] is the dictionary held by the node of
    the linked list, so decrementing its [available_seats] changes that
    node before [update] runs. *)
Definition book_ticket (choice : Z) (p : passenger) (pnr : string)
                       (current_user : user) (s : state)
  : result book_output * state :=
  let all := LinkedList.get_all (trains_list s) in
  match all with
  | [] => (Ok NoTrainsAvailable, s)
  | _ =>
      if (choice <? 1) || (Z.of_nat (length all) <? choice) then (Ok InvalidSelection, s)
      else
        let idx := Z.to_nat (choice - 1) in
        match all !! idx with
        | None => (Ok InvalidSelection, s)
        | Some train =>
            match select_train (t_id train) (db s) with
            | None => (Unhandled TypeError, s)
            | Some current_train =>
                if 0 <? available_seats current_train then
                  let seat_number :=
                    total_seats current_train - available_seats current_train + 1 in
                  match insert_booking
                          {| pnr := pnr; b_user_id := u_id current_user;
                             b_train_id := t_id train; b_passenger := p;
                             seat_number := seat_number;
                             booking_status := confirmed |} (db s) with
                  | None => (Unhandled IntegrityError, s)
                  | Some d =>
                      let train' := set_available train (available_seats train - 1) in
                      (Ok (TicketConfirmed pnr seat_number),
                       {| db := add_available (t_id train) (-1) d;
                          trains_list :=
                            fst (LinkedList.update (<[idx := train']> (trains_list s))
                                   (t_id train) train' by_id);
                          waiting_queues := waiting_queues s |})
                  end
                else
                  match waiting_queues s !! t_id train with
                  | None => (Unhandled KeyError, s)
                  | Some queue =>
                      let position := Queue.size queue + 1 in
                      (Ok (AddedToWaitingList position),
                       {| db := insert_waiting
                                  {| w_train_id := t_id train;
                                     w_user_id := u_id current_user;
                                     w_passenger := p; position := position |} (db s);
                          trains_list := trains_list s;
                          waiting_queues :=
                            <[t_id train :=
                                Queue.enqueue queue
                                  {| wd_train_id := t_id train; wd_passenger := p;
                                     wd_position := position |}]> (waiting_queues s) |})
                  end
            end
        end
  end.

(** [cancel_ticket]; [pnr] is the typed PNR after [strip().upper()]. *)
Definition cancel_ticket (pnr : string) (new_pnr : string)
                         (current_user : user) (s : state)
  : result cancel_output * state :=
  match select_booking_of pnr (u_id current_user) (db s) with
  | None => (Ok NotFoundOrNotAuthorized, s)
  | Some booking =>
      if status_eqb (booking_status booking) cancelled then (Ok AlreadyCancelled, s)
      else
        let d := cancel_status pnr (db s) in
        let tid := b_train_id booking in
        match waiting_queues s !! tid with
        | None =>
            (Ok NothingPrinted,
             {| db := d; trains_list := trains_list s;
                waiting_queues := waiting_queues s |})
        | Some queue =>
            match Queue.dequeue queue with
            | (Some waiting_passenger, rest) =>
                let queues := <[tid := rest]> (waiting_queues s) in
                match insert_booking
                        {| pnr := new_pnr;
                           b_user_id := u_id current_user;
                           b_train_id := tid;
                           b_passenger := wd_passenger waiting_passenger;
                           seat_number := seat_number booking;
                           booking_status := confirmed |} d with
                | None =>
                    (Unhandled IntegrityError,
                     {| db := db s; trains_list := trains_list s;
                        waiting_queues := queues |})
                | Some d' =>
                    (Ok (PassengerPromoted new_pnr),
                     {| db := shift_waiting tid (delete_first_waiting tid d');
                        trains_list := trains_list s;
                        waiting_queues := queues |})
                end
            | (None, _) =>
                (Ok TicketCancelled,
                 {| db := add_available tid 1 d; trains_list := trains_list s;
                    waiting_queues := waiting_queues s |})
            end
        end
  end.

End Terminal.

(** ** Vocabulary of the properties *)

(** The positions of a waiting list read [1, 2, ..., n] in table order. *)
Definition contiguous (ws : list waiting) : Prop :=
  map position ws = map Z.of_nat (seq 1 (length ws)).

(** [seat] is the smallest positive integer that is not in [held]. *)
Definition lowest_free (held : list Z) (seat : Z) : Prop :=
  0 < seat /\ ~ In seat held /\ forall k, 0 < k < seat -> In k held.

(** The seats of the confirmed bookings of a train. *)
Definition active_seats (tid : Z) (d : database) : list Z :=
  map seat_number (Sql.active_of tid d).

(** The caller of [cancel_booking] owns the booking or is an administrator. *)
Definition may_cancel (u : Server.token) (b : booking) : Prop :=
  b_user_id b = Server.user_id u \/ Server.role u = "admin"%string.

(** Who waits and for whom, without the position. *)
Definition waiting_entry (w : waiting) : Z * passenger := (w_user_id w, w_passenger w).

Module ServerRuns.
Import Sql Server.

Definition queue_entry (q : waiting_data) : Z * passenger :=
  (wd_user_id q, wd_passenger q).

(** The requests that create trains, reserve and release. *)
Inductive request :=
| CreateTrain (t : TrainCreate) (current_user : token)
| Reserve (booking : BookingCreate) (current_user : token) (pnr : string)
| Release (pnr : string) (current_user : token) (new_pnr : string).

Definition handle (r : request) (s : state) : state :=
  match r with
  | CreateTrain t u => snd (create_train t u s)
  | Reserve b u p => snd (create_booking b u p s)
  | Release p u np => snd (cancel_booking p u np s)
  end.

(** [generate_pnr] is documented to "generate unique PNR number": the
    string drawn for a request is not the PNR of a stored booking. *)
Definition draws_unused_pnr (r : request) (s : state) : Prop :=
  match r with
  | CreateTrain _ _ => True
  | Reserve _ _ p => pnr_taken p (db s) = false
  | Release _ _ np => pnr_taken np (db s) = false
  end.

(** The states of a server that starts on an empty database and serves
    train creations, reservations and releases. *)
Inductive reachable : state -> Prop :=
| reachable_initial : reachable initial_state
| reachable_step s r :
    reachable s -> draws_unused_pnr r s -> reachable (handle r s).

Fixpoint run (rs : list request) (s : state) : state :=
  match rs with
  | [] => s
  | r :: rs' => run rs' (handle r s)
  end.

(** Every request of [rs], served in turn from [s], draws an unused PNR. *)
Fixpoint unused_along (rs : list request) (s : state) : Prop :=
  match rs with
  | [] => True
  | r :: rs' => draws_unused_pnr r s /\ unused_along rs' (handle r s)
  end.

(** The waiting list of every train and its in-memory queue agree, and no
    train has a free seat while somebody waits for it. *)
Record coherent (s : state) : Prop := {
  ids_unique : NoDup (map t_id (trains (db s)));
  ids_issued : forall t, In t (trains (db s)) -> t_id t <= trains_seq (db s);
  waiting_has_train :
    forall w, In w (waiting_list (db s)) ->
              exists t, In t (trains (db s)) /\ t_id t = w_train_id w;
  queue_mirrors_table :
    forall tid, map waiting_entry (waiting_of tid (db s))
                = map queue_entry (queue_of tid s);
  positions_contiguous : forall tid, contiguous (waiting_of tid (db s));
  no_idle_seat :
    forall t, In t (trains (db s)) -> 0 < available_seats t ->
              waiting_of (t_id t) (db s) = []
}.

(** PNRs are unique, the seats of a train are available or held by a
    confirmed booking, and every held seat number is one of the train. *)
Record accounted (s : state) : Prop := {
  pnrs_unique : NoDup (map pnr (bookings (db s)));
  seats_accounted :
    forall t, In t (trains (db s)) ->
              available_seats t + Z.of_nat (length (active_of (t_id t) (db s)))
              = total_seats t;
  seats_in_range :
    forall b, In b (bookings (db s)) -> booking_status b = confirmed ->
              exists t, In t (trains (db s)) /\ t_id t = b_train_id b
                        /\ 1 <= seat_number b <= total_seats t
}.
End ServerRuns.

(** ** Concrete runs used as examples below *)

Module Scenario.
Import Sql Server ServerRuns.

Definition admin : token := {| user_id := 1; role := "admin" |}.
Definition alice : token := {| user_id := 2; role := "passenger" |}.
Definition bob : token := {| user_id := 3; role := "passenger" |}.
Definition carol : token := {| user_id := 4; role := "passenger" |}.

Definition traveller (name : string) : passenger :=
  {| passenger_name := name; passenger_age := 30;
     passenger_gender := "F"; passenger_phone := "5550100" |}.

Definition seat_on (tid : Z) (name : string) : BookingCreate :=
  {| train_id := tid; bc_passenger := traveller name |}.

Definition express (seats : Z) : TrainCreate :=
  {| tc_train_number := "12001"; tc_train_name := "Express"; tc_total_seats := seats |}.

(** A train of two seats, the first one sold. *)
Definition one_of_two_sold : state :=
  run [CreateTrain (express 2) admin;
       Reserve (seat_on 1 "Asha") alice "PNRAAAAAA1"] initial_state.

(** A train of two seats, both sold. *)
Definition two_sold : state :=
  run [CreateTrain (express 2) admin;
       Reserve (seat_on 1 "Asha") alice "PNRAAAAAA1";
       Reserve (seat_on 1 "Bina") bob "PNRBBBBBB2"] initial_state.

(** The same train once the holder of seat 1 has cancelled. *)
Definition two_sold_one_released : state :=
  run [Release "PNRAAAAAA1" alice "PNRXXXXXX0"] two_sold.

(** ... and the freed seat has been sold again. *)
Definition resold : state :=
  run [Reserve (seat_on 1 "Chitra") carol "PNRCCCCCC3"] two_sold_one_released.

(** A train of one seat, sold, with one passenger waiting. *)
Definition one_sold_one_waiting : state :=
  run [CreateTrain (express 1) admin;
       Reserve (seat_on 1 "Asha") alice "PNRAAAAAA1";
       Reserve (seat_on 1 "Bina") bob "PNRBBBBBB2"] initial_state.


(** A train of three seats, all sold, then seats 1 and 2 cancelled. *)
Definition three_sold_two_released : state :=
  run [CreateTrain (express 3) admin;
       Reserve (seat_on 1 "Asha") alice "PNRAAAAAA1";
       Reserve (seat_on 1 "Bina") bob "PNRBBBBBB2";
       Reserve (seat_on 1 "Chitra") carol "PNRCCCCCC3";
       Release "PNRAAAAAA1" alice "PNRXXXXXX0";
       Release "PNRBBBBBB2" bob "PNRXXXXXX0"] initial_state.

(** The state [one_sold_one_waiting] with the in-memory queue emptied and
    the tables left as they are. *)
Definition one_sold_queue_lost : state :=
  {| db := db one_sold_one_waiting;
     trains_linked_list := trains_linked_list one_sold_one_waiting;
     waiting_queues := <[1 := []]> (waiting_queues one_sold_one_waiting);
     passenger_cache := passenger_cache one_sold_one_waiting |}.

(** The state [one_sold_one_waiting] with the linked list emptied and the
    tables left as they are. *)
Definition one_sold_list_lost : state :=
  {| db := db one_sold_one_waiting;
     trains_linked_list := [];
     waiting_queues := waiting_queues one_sold_one_waiting;
     passenger_cache := passenger_cache one_sold_one_waiting |}.

(** The state [two_sold] with a stale linked list, which still shows two
    available seats, and an empty passenger cache. *)
Definition two_sold_stale_mirror : state :=
  {| db := db two_sold;
     trains_linked_list :=
       [ {| t_id := 1; train_number := "12001"; train_name := "Express";
            total_seats := 2; available_seats := 2 |} ];
     waiting_queues := waiting_queues two_sold;
     passenger_cache := ∅ |}.
End Scenario.

Module TerminalScenario.
Import Sql Terminal.

Definition alice : user := {| u_id := 2; u_role := "passenger" |}.
Definition bob : user := {| u_id := 3; u_role := "passenger" |}.

(** A terminal started on the tables of [Scenario.one_of_two_sold]. *)
Definition one_sold : state := load_data (Server.db Scenario.one_of_two_sold).

(** A terminal started on the tables of [Scenario.two_sold]. *)
Definition two_sold : state := load_data (Server.db Scenario.two_sold).

(** A terminal started on the tables of [Scenario.one_sold_one_waiting],
    where Bina (user 3) waits at position 1 for the seat of Asha (user 2). *)
Definition one_sold_one_waiting : state :=
  load_data (Server.db Scenario.one_sold_one_waiting).

(** The terminal [two_sold] with an empty list of trains. *)
Definition two_sold_no_list : state :=
  {| db := db two_sold; trains_list := []; waiting_queues := waiting_queues two_sold |}.

(** The terminal [two_sold] without a queue for its train, as when the
    train was added by another program after the terminal had started. *)
Definition two_sold_no_queue : state :=
  {| db := db two_sold; trains_list := trains_list two_sold; waiting_queues := ∅ |}.
End TerminalScenario.

(** ** server.py: start-up, train deletion and the read-only routes *)

Module ServerReads.
Import Sql Server.

(** [ORDER BY id] *)
Fixpoint insert_by_id (t : train) (l : list train) : list train :=
  match l with
  | [] => [t]
  | x :: xs => if t_id t <=? t_id x then t :: l else x :: insert_by_id t xs
  end.

Definition order_by_id (l : list train) : list train :=
  fold_right insert_by_id [] l.

(** The dictionary [sync_waiting_lists] enqueues for a row of
    [waiting_list], with the keys [cancel_booking] reads. *)
Definition waiting_dict (w : waiting) : waiting_data :=
  {| wd_user_id := w_user_id w; wd_passenger := w_passenger w;
     wd_position := position w |}.

(** [sync_trains_to_linked_list]: the list is rebuilt from the table, a
    train without a key in [waiting_queues] gets an empty queue, and the
    queues that exist are kept.  Returns the number of trains. *)
Definition sync_trains_to_linked_list (s : state) : Z * state :=
  let rows := order_by_id (trains (db s)) in
  let loaded :=
    fold_left
      (fun (acc : list train * gmap Z (list waiting_data)) t =>
         (LinkedList.insert_at_end (fst acc) t,
          match snd acc !! t_id t with
          | Some _ => snd acc
          | None => <[t_id t := []]> (snd acc)
          end))
      rows ([], waiting_queues s) in
  (Z.of_nat (length rows),
   {| db := db s; trains_linked_list := fst loaded;
      waiting_queues := snd loaded; passenger_cache := passenger_cache s |}).

(** [sync_waiting_lists]: every row of [waiting_list], in the order of the
    query, is enqueued on the queue of its train, created when missing. *)
Definition sync_waiting_lists (s : state) : state :=
  {| db := db s;
     trains_linked_list := trains_linked_list s;
     waiting_queues :=
       fold_left
         (fun (qs : gmap Z (list waiting_data)) w =>
            <[w_train_id w :=
                Queue.enqueue (default [] (qs !! w_train_id w)) (waiting_dict w)]> qs)
         (Terminal.order_by_train_position (waiting_list (db s))) (waiting_queues s);
     passenger_cache := passenger_cache s |}.

(** The two calls at module level, on the structures as they are created:
    an empty list and two empty dictionaries. *)
Definition module_import (d : database) : state :=
  sync_waiting_lists
    (snd (sync_trains_to_linked_list
            {| db := d; trains_linked_list := []; waiting_queues := ∅;
               passenger_cache := ∅ |})).

(** [startup_event], which the application runs after the module has been
    imported. *)
Definition startup_event (s : state) : state :=
  sync_waiting_lists (snd (sync_trains_to_linked_list s)).

(** [DELETE /trains/{train_id}] *)
Definition delete_train (tid : Z) (current_user : token) (s : state)
  : result unit * state :=
  if negb (is_admin current_user) then (HTTPException 403 "Admin access required", s)
  else if negb (existsb (fun t => t_id t =? tid) (trains (db s)))
  then (HTTPException 404 "Train not found", s)
  else
    (Ok tt,
     {| db := with_trains (db s)
                (List.filter (fun t => negb (t_id t =? tid)) (trains (db s)));
        trains_linked_list :=
          fst (LinkedList.delete_by_value (trains_linked_list s) tid by_id);
        waiting_queues := delete tid (waiting_queues s);
        passenger_cache := passenger_cache s |}).

(** [GET /trains]: every node of the linked list with the size of the queue
    of its train as ["waiting_count"], 0 without a queue. *)
Definition get_all_trains (s : state) : list (train * Z) :=
  map (fun t => (t, match waiting_queues s !! t_id t with
                    | Some queue => Queue.size queue
                    | None => 0
                    end))
      (LinkedList.get_all (trains_linked_list s)).

(** [GET /bookings/pnr/{pnr}]: the booking joined with the row of its
    train. *)
Definition get_booking_by_pnr (p : string) (s : state) : result (booking * train) :=
  match List.find
          (fun b => String.eqb (pnr b) p
                    && existsb (fun t => t_id t =? b_train_id b) (trains (db s)))
          (bookings (db s)) with
  | Some b =>
      match select_train (b_train_id b) (db s) with
      | Some t => Ok (b, t)
      | None => HTTPException 404 "Booking not found"
      end
  | None => HTTPException 404 "Booking not found"
  end.



End ServerReads.

(** ** Runs of queue operations *)

Module QueueRuns.
Section Runs.
Context {A : Type}.

(** [enqueue] called for every item of [xs] in turn. *)
Fixpoint enqueue_all (items : list A) (xs : list A) : list A :=
  match xs with
  | [] => items
  | x :: xs' => enqueue_all (Queue.enqueue items x) xs'
  end.

(** [dequeue] called [n] times: what the calls return, and the queue that
    is left. *)
Fixpoint dequeue_times (n : nat) (items : list A) : list (option A) * list A :=
  match n with
  | O => ([], items)
  | S n' =>
      let '(x, rest) := Queue.dequeue items in
      let '(xs, remaining) := dequeue_times n' rest in
      (x :: xs, remaining)
  end.
End Runs.
End QueueRuns.

(** ** terminal_app.py: train management and runs of a terminal *)

Module TerminalRuns.
Import Sql Terminal.

Inductive add_output := TrainAdded (train_number : string) | TrainNumberExists.

Inductive delete_output := TrainDeleted (train_number : string) | TrainNotFound.

(** [add_train], with the typed fields as arguments. *)
Definition add_train (number name : string) (total : Z) (s : state)
  : add_output * state :=
  match insert_train number name total total (db s) with
  | None => (TrainNumberExists, s)
  | Some (new_id, d) =>
      (TrainAdded number,
       {| db := d;
          trains_list :=
            LinkedList.insert_at_end (trains_list s)
              {| t_id := new_id; train_number := number; train_name := name;
                 total_seats := total; available_seats := total |};
          waiting_queues := <[new_id := []]> (waiting_queues s) |})
  end.

(** [lambda t, num: t['train_number'] == num] *)
Definition by_number (t : train) (num : string) : bool :=
  String.eqb (train_number t) num.

(** [delete_train]: the row and the node go, the queue of the train stays. *)
Definition delete_train (number : string) (s : state) : delete_output * state :=
  if existsb (fun t => String.eqb (train_number t) number) (trains (db s)) then
    (TrainDeleted number,
     {| db := with_trains (db s)
                (List.filter (fun t => negb (String.eqb (train_number t) number))
                             (trains (db s)));
        trains_list := fst (LinkedList.delete_by_value (trains_list s) number by_number);
        waiting_queues := waiting_queues s |})
  else (TrainNotFound, s).

(** What a user can do at the menus once logged in. *)
Inductive action :=
| AddTrain (number name : string) (total : Z)
| DeleteTrain (number : string)
| BookTicket (choice : Z) (p : passenger) (pnr : string) (current_user : user)
| CancelTicket (pnr new_pnr : string) (current_user : user).

Definition perform (a : action) (s : state) : state :=
  match a with
  | AddTrain number name total => snd (add_train number name total s)
  | DeleteTrain number => snd (delete_train number s)
  | BookTicket choice p pnr u => snd (book_ticket choice p pnr u s)
  | CancelTicket pnr new_pnr u => snd (cancel_ticket pnr new_pnr u s)
  end.

(** The states of a terminal started on some tables. *)
Inductive reachable : state -> Prop :=
| reachable_loaded d : reachable (load_data d)
| reachable_step s a : reachable s -> reachable (perform a s).
End TerminalRuns.

(** ** Vocabulary of the further properties *)

(** A booking row as a handler leaves it: untouched, or with its status set
    to [cancelled] and every other column as before. *)
Definition kept_or_cancelled (b b' : booking) : Prop :=
  b' = b \/ b' = Sql.set_status b cancelled.

(** The table [l'] holds the rows of [l], in their order, each untouched or
    cancelled, followed by the rows added since. *)
Definition history_kept (l l' : list booking) : Prop :=
  exists kept added, l' = kept ++ added /\ Forall2 kept_or_cancelled l kept.

(** Every train in the list of a terminal has a key in its dictionary of
    queues. *)
Definition every_node_has_queue (s : Terminal.state) : Prop :=
  forall t, In t (Terminal.trains_list s) ->
            is_Some (Terminal.waiting_queues s !! t_id t).

(** * Properties *)

(** ** Facts about the SQL statements *)

Section SqlFacts.
Import Sql.

Lemma select_train_add_available tid delta d t :
  select_train tid d = Some t ->
  select_train tid (add_available tid delta d)
  = Some (set_available t (available_seats t + delta)).
Proof.
  unfold select_train, add_available; simpl.
  induction (trains d) as [|x xs IH]; simpl; [discriminate|].
  destruct (t_id x =? tid) eqn:E; simpl.
  - intros [= ->]. now rewrite E.
  - rewrite E. exact IH.
Qed.


Lemma select_train_in tid d t :
  select_train tid d = Some t -> In t (trains d) /\ t_id t = tid.
Proof.
  unfold select_train. intros H. apply find_some in H as [Hin Heq].
  split; [exact Hin | now apply Z.eqb_eq].
Qed.

Lemma pnr_taken_false p d :
  pnr_taken p d = false -> forall b, In b (bookings d) -> pnr b <> p.
Proof.
  unfold pnr_taken. intros H b Hin Heq.
  assert (existsb (fun b => String.eqb (pnr b) p) (bookings d) = true) as Ht.
  { apply existsb_exists. exists b. split; [exact Hin | now apply String.eqb_eq]. }
  congruence.
Qed.

Lemma pnr_taken_cancel_status p q d :
  pnr_taken p (cancel_status q d) = pnr_taken p d.
Proof.
  unfold pnr_taken, cancel_status; simpl.
  induction (bookings d) as [|x xs IH]; simpl; [reflexivity|].
  rewrite IH. now destruct (String.eqb (pnr x) q).
Qed.

Lemma insert_booking_unused b d :
  pnr_taken (pnr b) d = false ->
  insert_booking b d = Some (with_bookings d (bookings d ++ [b])).
Proof. unfold insert_booking. now intros ->. Qed.

(** Waiting lists, train by train. *)

Lemma waiting_of_insert_same tid w d :
  w_train_id w = tid ->
  waiting_of tid (insert_waiting w d) = waiting_of tid d ++ [w].
Proof.
  intros Hw. unfold waiting_of, insert_waiting; simpl.
  rewrite filter_app; simpl. rewrite Hw, Z.eqb_refl. reflexivity.
Qed.

Lemma waiting_of_insert_other tid w d :
  w_train_id w <> tid ->
  waiting_of tid (insert_waiting w d) = waiting_of tid d.
Proof.
  intros Hw. unfold waiting_of, insert_waiting; simpl.
  rewrite filter_app; simpl.
  apply Z.eqb_neq in Hw. rewrite Hw. apply app_nil_r.
Qed.

(** Deleting position 1 and shifting, seen on the waiting list of the
    train itself. *)
Lemma waiting_of_promote_same tid d :
  waiting_of tid (shift_waiting tid (delete_first_waiting tid d))
  = map (fun w => set_position w (position w - 1))
        (List.filter (fun w => negb (position w =? 1)) (waiting_of tid d)).
Proof.
  unfold waiting_of, shift_waiting, delete_first_waiting; simpl.
  induction (waiting_list d) as [|w ws IH]; simpl; [reflexivity|].
  destruct (w_train_id w =? tid) eqn:E; simpl.
  - destruct (position w =? 1); simpl; [exact IH|].
    rewrite E; simpl. rewrite E. now rewrite IH.
  - rewrite E; simpl. rewrite E. exact IH.
Qed.

Lemma waiting_of_promote_other tid tid' d :
  tid' <> tid ->
  waiting_of tid' (shift_waiting tid (delete_first_waiting tid d)) = waiting_of tid' d.
Proof.
  intros Hne. unfold waiting_of, shift_waiting, delete_first_waiting; simpl.
  induction (waiting_list d) as [|w ws IH]; simpl; [reflexivity|].
  destruct (w_train_id w =? tid) eqn:E; simpl.
  - assert ((w_train_id w =? tid') = false) as E'
      by (apply Z.eqb_eq in E; apply Z.eqb_neq; congruence).
    rewrite E'.
    destruct (position w =? 1); simpl; [exact IH |].
    rewrite E; simpl. now rewrite E'.
  - rewrite E; simpl.
    destruct (w_train_id w =? tid'); [now rewrite IH | exact IH].
Qed.
End SqlFacts.

(** ** Contiguous positions *)

Section Positions.
Import Sql.

Lemma contiguous_snoc ws w :
  contiguous ws ->
  position w = Z.of_nat (length ws) + 1 ->
  contiguous (ws ++ [w]).
Proof.
  unfold contiguous. intros H Hw.
  rewrite map_app, H, length_app; simpl.
  rewrite Nat.add_1_r, seq_S, map_app; simpl.
  rewrite Hw. do 3 f_equal. lia.
Qed.

Lemma contiguous_head w ws : contiguous (w :: ws) -> position w = 1.
Proof. unfold contiguous; simpl. now intros [= -> _]. Qed.

Lemma contiguous_tail_positions w ws x :
  contiguous (w :: ws) -> In x ws -> 2 <= position x.
Proof.
  unfold contiguous; simpl. intros [= _ H] Hin.
  apply (in_map position) in Hin. rewrite H in Hin.
  apply in_map_iff in Hin as (k & <- & Hk). apply in_seq in Hk. lia.
Qed.

(** Deleting position 1 removes the head and nothing else. *)
Lemma contiguous_delete_first w ws :
  contiguous (w :: ws) ->
  List.filter (fun w => negb (position w =? 1)) (w :: ws) = ws.
Proof.
  intros H; simpl. rewrite (contiguous_head _ _ H); simpl.
  assert (forall x, In x ws -> 2 <= position x) as Hge
    by (intros x; apply (contiguous_tail_positions w ws x H)).
  clear H. induction ws as [|y ys IH]; simpl; [reflexivity|].
  assert ((position y =? 1) = false) as ->
    by (apply Z.eqb_neq; specialize (Hge y (or_introl eq_refl)); lia).
  simpl. f_equal. apply IH. intros x Hx. apply Hge. now right.
Qed.

(** Shifting what is left makes it start at 1 again. *)
Lemma contiguous_shift w ws :
  contiguous (w :: ws) ->
  contiguous (map (fun w => set_position w (position w - 1)) ws).
Proof.
  unfold contiguous; simpl. intros [= _ H].
  rewrite length_map, map_map; simpl.
  rewrite <- (map_map position (fun z => z - 1)), H.
  rewrite <- seq_shift, !map_map.
  apply map_ext. intros k. lia.
Qed.
End Positions.

(** ** The branches of the server's handlers *)

Section ServerBranches.
Import Sql Server.

Lemma is_admin_false u : role u <> "admin"%string -> is_admin u = false.
Proof. intros H. unfold is_admin. now apply String.eqb_neq. Qed.

Lemma is_admin_true u : role u = "admin"%string -> is_admin u = true.
Proof. intros H. unfold is_admin. now apply String.eqb_eq. Qed.

Lemma may_cancel_check u b :
  may_cancel u b ->
  negb (b_user_id b =? user_id u) && negb (is_admin u) = false.
Proof.
  intros [H | H].
  - apply Z.eqb_eq in H. now rewrite H.
  - rewrite (is_admin_true _ H). apply andb_false_r.
Qed.




(** Reserve on a train that has a free seat. *)
Lemma create_booking_confirmed bk u p s node row :
  LinkedList.search (trains_linked_list s) (train_id bk) by_id = Some node ->
  select_train (train_id bk) (db s) = Some row ->
  0 < available_seats row ->
  pnr_taken p (db s) = false ->
  create_booking bk u p s
  = (Ok (Confirmed p (total_seats row - available_seats row + 1)),
     {| db := add_available (train_id bk) (-1)
                (with_bookings (db s)
                   (bookings (db s)
                    ++ [ {| pnr := p; b_user_id := user_id u;
                            b_train_id := train_id bk;
                            b_passenger := bc_passenger bk;
                            seat_number := total_seats row - available_seats row + 1;
                            booking_status := confirmed |} ]));
        trains_linked_list :=
          fst (LinkedList.update (trains_linked_list s) (train_id bk)
                 (set_available node (available_seats node - 1)) by_id);
        waiting_queues := waiting_queues s;
        passenger_cache :=
          <[p := {| c_passenger := bc_passenger bk; c_train_id := train_id bk;
                    c_seat := total_seats row - available_seats row + 1 |}]>
            (passenger_cache s) |}).
Proof.
  intros Hn Hr Hav Hp. unfold create_booking. rewrite Hn, Hr.
  assert ((0 <? available_seats row) = true) as -> by now apply Z.ltb_lt.
  now rewrite insert_booking_unused.
Qed.

End ServerBranches.

(** ** The branches of the terminal's methods *)

Section TerminalBranches.
Import Sql Terminal.

Lemma cancel_ticket_release p np u s b :
  select_booking_of p (u_id u) (db s) = Some b ->
  booking_status b = confirmed ->
  waiting_queues s !! b_train_id b = Some [] ->
  cancel_ticket p np u s
  = (Ok TicketCancelled,
     {| db := add_available (b_train_id b) 1 (cancel_status p (db s));
        trains_list := trains_list s;
        waiting_queues := waiting_queues s |}).
Proof.
  intros Hb Hst Hq. unfold cancel_ticket. rewrite Hb, Hst, Hq. reflexivity.
Qed.

Lemma cancel_ticket_promote p np u s b first rest :
  select_booking_of p (u_id u) (db s) = Some b ->
  booking_status b = confirmed ->
  waiting_queues s !! b_train_id b = Some (first :: rest) ->
  pnr_taken np (db s) = false ->
  cancel_ticket p np u s
  = (Ok (PassengerPromoted np),
     {| db := shift_waiting (b_train_id b)
                (delete_first_waiting (b_train_id b)
                   (with_bookings (cancel_status p (db s))
                      (bookings (cancel_status p (db s))
                       ++ [ {| pnr := np; b_user_id := u_id u;
                               b_train_id := b_train_id b;
                               b_passenger := wd_passenger first;
                               seat_number := seat_number b;
                               booking_status := confirmed |} ])));
        trains_list := trains_list s;
        waiting_queues := <[b_train_id b := rest]> (waiting_queues s) |}).
Proof.
  intros Hb Hst Hq Hnp. unfold cancel_ticket. rewrite Hb, Hst, Hq; simpl.
  rewrite insert_booking_unused by (simpl; now rewrite pnr_taken_cancel_status).
  reflexivity.
Qed.

(** The menu accepts [choice] exactly when it numbers a node of the list. *)
Lemma book_ticket_selects choice s node :
  1 <= choice ->
  trains_list s !! Z.to_nat (choice - 1) = Some node ->
  trains_list s <> []
  /\ (choice <? 1) || (Z.of_nat (length (trains_list s)) <? choice) = false.
Proof.
  intros Hc Hn. apply lookup_lt_Some in Hn.
  split.
  - destruct (trains_list s); [simpl in Hn; lia | discriminate].
  - apply orb_false_iff. split; [apply Z.ltb_ge; lia | apply Z.ltb_ge; lia].
Qed.


Lemma book_ticket_confirmed choice psg p u s node row :
  1 <= choice ->
  trains_list s !! Z.to_nat (choice - 1) = Some node ->
  select_train (t_id node) (db s) = Some row ->
  0 < available_seats row ->
  pnr_taken p (db s) = false ->
  book_ticket choice psg p u s
  = (Ok (TicketConfirmed p (total_seats row - available_seats row + 1)),
     {| db := add_available (t_id node) (-1)
                (with_bookings (db s)
                   (bookings (db s)
                    ++ [ {| pnr := p; b_user_id := u_id u; b_train_id := t_id node;
                            b_passenger := psg;
                            seat_number := total_seats row - available_seats row + 1;
                            booking_status := confirmed |} ]));
        trains_list :=
          fst (LinkedList.update
                 (<[Z.to_nat (choice - 1) :=
                      set_available node (available_seats node - 1)]> (trains_list s))
                 (t_id node) (set_available node (available_seats node - 1)) by_id);
        waiting_queues := waiting_queues s |}).
Proof.
  intros Hc Hn Hr Hav Hp.
  destruct (book_ticket_selects _ _ _ Hc Hn) as [Hne Hsel].
  unfold book_ticket, LinkedList.get_all.
  destruct (trains_list s) as [|x xs] eqn:El; [congruence|].
  rewrite Hsel, Hn, Hr.
  assert ((0 <? available_seats row) = true) as -> by now apply Z.ltb_lt.
  now rewrite insert_booking_unused.
Qed.
End TerminalBranches.

(** ** Who may cancel *)

Section Authorization.
Import Sql.

Lemma select_booking_of_none p uid d :
  (forall b, In b (bookings d) -> pnr b = p -> b_user_id b <> uid) ->
  select_booking_of p uid d = None.
Proof.
  intros H. unfold select_booking_of.
  destruct (List.find _ (bookings d)) as [b|] eqn:E; [|reflexivity].
  apply find_some in E as [Hin Hb]. apply andb_true_iff in Hb as [Hp Hu].
  apply String.eqb_eq in Hp. apply Z.eqb_eq in Hu.
  now destruct (H b Hin Hp).
Qed.

Lemma select_booking_of_some p uid d b :
  select_booking_of p uid d = Some b ->
  In b (bookings d) /\ pnr b = p /\ b_user_id b = uid.
Proof.
  unfold select_booking_of. intros E.
  apply find_some in E as [Hin Hb]. apply andb_true_iff in Hb as [Hp Hu].
  apply String.eqb_eq in Hp. apply Z.eqb_eq in Hu. auto.
Qed.

Lemma cancel_booking_ok_may_cancel p u np s b r s' :
  select_booking p (Server.db s) = Some b ->
  Server.cancel_booking p u np s = (Ok r, s') ->
  may_cancel u b.
Proof.
  intros Hb. unfold Server.cancel_booking. rewrite Hb.
  destruct (Z.eqb_spec (b_user_id b) (Server.user_id u)) as [Ho | Ho]; simpl.
  - intros _. now left.
  - destruct (Server.is_admin u) eqn:Ea; simpl; [|discriminate].
    intros _. right. now apply String.eqb_eq.
Qed.

Lemma cancel_ticket_changes_own p np u s out s' :
  Terminal.cancel_ticket p np u s = (out, s') ->
  s' <> s ->
  exists b, In b (bookings (Terminal.db s)) /\ pnr b = p /\ b_user_id b = Terminal.u_id u.
Proof.
  unfold Terminal.cancel_ticket.
  destruct (select_booking_of p (Terminal.u_id u) (Terminal.db s)) as [b|] eqn:Eb.
  - intros _ _. exists b. now apply select_booking_of_some.
  - intros [= _ <-] H. now destruct H.
Qed.
End Authorization.

(** C10.  A caller of [cancel_booking] who neither owns the booking nor has
    the role [admin] gets the 403 response and the state, tables and
    in-memory structures alike, is the one before the call; a call that
    succeeds comes from the owner or from an administrator.  In the terminal,
    [cancel_ticket] looks the booking up under the id of the logged-in user:
    for anybody else it prints "Booking not found or not authorized" and
    changes nothing, and whenever it changes something the PNR is one of the
    caller's own bookings. *)
Theorem cancel_refused_for_strangers
    (p np : string) (u : Server.token) (s : Server.state) (b : booking)
    (tu : Terminal.user) (ts : Terminal.state)
    (Hfound : Sql.select_booking p (Server.db s) = Some b)
    (Hnot_owner : b_user_id b <> Server.user_id u)
    (Hnot_admin : Server.role u <> "admin"%string)
    (Hforeign : forall b', In b' (bookings (Terminal.db ts)) -> pnr b' = p ->
                           b_user_id b' <> Terminal.u_id tu) :
  Server.cancel_booking p u np s
  = (HTTPException 403 "Not authorized to cancel this booking", s)
  /\ (forall u' r s', Server.cancel_booking p u' np s = (Ok r, s') -> may_cancel u' b)
  /\ Terminal.cancel_ticket p np tu ts = (Ok Terminal.NotFoundOrNotAuthorized, ts)
  /\ (forall tu' out ts', Terminal.cancel_ticket p np tu' ts = (out, ts') -> ts' <> ts ->
        exists b', In b' (bookings (Terminal.db ts)) /\ pnr b' = p
                   /\ b_user_id b' = Terminal.u_id tu').
Proof.
  repeat split.
  - unfold Server.cancel_booking. rewrite Hfound.
    apply Z.eqb_neq in Hnot_owner. rewrite Hnot_owner.
    now rewrite (is_admin_false _ Hnot_admin).
  - intros u' r s'. now apply cancel_booking_ok_may_cancel.
  - unfold Terminal.cancel_ticket. now rewrite (select_booking_of_none _ _ _ Hforeign).
  - intros tu' out ts'. apply cancel_ticket_changes_own.
Qed.

Lemma cancel_refused_for_strangers_witness :
  Server.cancel_booking "PNRAAAAAA1" Scenario.bob "PNRXXXXXX0" Scenario.two_sold
  = (HTTPException 403 "Not authorized to cancel this booking", Scenario.two_sold)
  /\ Terminal.cancel_ticket "PNRAAAAAA1" "PNRXXXXXX0" TerminalScenario.bob
       TerminalScenario.two_sold
     = (Ok Terminal.NotFoundOrNotAuthorized, TerminalScenario.two_sold).
Proof.
  pose proof (cancel_refused_for_strangers
                "PNRAAAAAA1" "PNRXXXXXX0" Scenario.bob Scenario.two_sold
                {| pnr := "PNRAAAAAA1"; b_user_id := 2; b_train_id := 1;
                   b_passenger := Scenario.traveller "Asha"; seat_number := 1;
                   booking_status := confirmed |}
                TerminalScenario.bob TerminalScenario.two_sold) as H.
  destruct H as (Hs & _ & Ht & _).
  - reflexivity.
  - simpl. lia.
  - simpl. discriminate.
  - intros b' Hin Hp.
    simpl in Hin. destruct Hin as [<- | [<- | []]]; simpl in *; [lia | discriminate].
  - split; [exact Hs | exact Ht].
Defined.

(** ** Release with an empty waiting list *)



(** ** Reserve on a full train *)



(** ** Release with a waiting list *)

Section Promotion.
Import Sql.

(** On a contiguous waiting list the two statements of a promotion drop
    the head and renumber the rest. *)
Lemma promote_waiting_of tid d w ws :
  waiting_of tid d = w :: ws ->
  contiguous (w :: ws) ->
  waiting_of tid (shift_waiting tid (delete_first_waiting tid d))
  = map (fun w => set_position w (position w - 1)) ws.
Proof.
  intros Hrows Hpos.
  rewrite waiting_of_promote_same, Hrows.
  now rewrite (contiguous_delete_first _ _ Hpos).
Qed.

End Promotion.



(** ** Who gets the promoted booking *)

(** C5, in the terminal.  Asha (user 2) holds the only seat of train 1 and
    Bina (user 3) waits at position 1.  When Asha cancels, [cancel_ticket]
    books the vacated seat 1 for Bina's name, age, gender and phone, but
    under the user id of Asha, the caller, and not under the user id 3 of the
    waiting-list row it removes. *)
Theorem terminal_promotion_is_booked_for_the_caller :
  map w_user_id (Sql.waiting_of 1 (Terminal.db TerminalScenario.one_sold_one_waiting)) = [3]
  /\ Terminal.waiting_queues TerminalScenario.one_sold_one_waiting !! 1
     = Some [ {| Terminal.wd_train_id := 1;
                 Terminal.wd_passenger := Scenario.traveller "Bina";
                 Terminal.wd_position := 1 |} ]
  /\ Terminal.u_id TerminalScenario.alice = 2
  /\ let after := Terminal.cancel_ticket "PNRAAAAAA1" "PNRXXXXXX0" TerminalScenario.alice
                    TerminalScenario.one_sold_one_waiting in
     fst after = Ok (Terminal.PassengerPromoted "PNRXXXXXX0")
     /\ Sql.waiting_of 1 (Terminal.db (snd after)) = []
     /\ Sql.select_booking "PNRXXXXXX0" (Terminal.db (snd after))
        = Some {| pnr := "PNRXXXXXX0"; b_user_id := 2; b_train_id := 1;
                  b_passenger := Scenario.traveller "Bina"; seat_number := 1;
                  booking_status := confirmed |}.
Proof. repeat split. Qed.

(** The server, on the same tables, books the seat for user 3. *)
Lemma server_promotion_is_booked_for_the_waiting_user :
  let after := Server.cancel_booking "PNRAAAAAA1" Scenario.alice "PNRXXXXXX0"
                 Scenario.one_sold_one_waiting in
  fst after = Ok (CancelledPromoted "PNRXXXXXX0")
  /\ Sql.select_booking "PNRXXXXXX0" (Server.db (snd after))
     = Some {| pnr := "PNRXXXXXX0"; b_user_id := 3; b_train_id := 1;
               b_passenger := Scenario.traveller "Bina"; seat_number := 1;
               booking_status := confirmed |}.
Proof. repeat split. Qed.

Lemma find_app_unmatched {A} (f : A -> bool) (l l' : list A) :
  (forall x, In x l -> f x = false) ->
  List.find f (l ++ l') = List.find f l'.
Proof.
  induction l as [|x xs IH]; intros H; simpl; [reflexivity|].
  rewrite (H x) by now left. apply IH. intros y Hy. apply H. now right.
Qed.

Lemma cancel_status_pnrs p d :
  map pnr (bookings (Sql.cancel_status p d)) = map pnr (bookings d).
Proof.
  unfold Sql.cancel_status; simpl. rewrite map_map. apply map_ext.
  intros b. now destruct (String.eqb (pnr b) p).
Qed.

(** In general the booking [cancel_ticket] inserts carries [u_id] of the
    caller, whoever waits. *)
Lemma terminal_promotion_user p np u s b first rest :
  Sql.select_booking_of p (Terminal.u_id u) (Terminal.db s) = Some b ->
  booking_status b = confirmed ->
  Terminal.waiting_queues s !! b_train_id b = Some (first :: rest) ->
  Sql.pnr_taken np (Terminal.db s) = false ->
  exists nb, Sql.select_booking np (Terminal.db (snd (Terminal.cancel_ticket p np u s)))
             = Some nb
             /\ b_user_id nb = Terminal.u_id u.
Proof.
  intros Hb Hst Hq Hnp.
  rewrite (cancel_ticket_promote p np u s b first rest Hb Hst Hq Hnp).
  cbn [snd Terminal.db]. unfold Sql.select_booking. cbn [bookings Sql.shift_waiting
    Sql.delete_first_waiting Sql.with_waiting_list Sql.with_bookings].
  rewrite find_app_unmatched.
  - simpl. rewrite String.eqb_refl. eexists. split; reflexivity.
  - intros x Hx. apply String.eqb_neq. intros Heq.
    apply (in_map pnr) in Hx. rewrite cancel_status_pnrs in Hx.
    apply in_map_iff in Hx as (y & Hy & Hin).
    apply (pnr_taken_false _ _ Hnp y Hin). congruence.
Qed.

(** ** Seat numbers *)

Lemma run_reachable rs s :
  ServerRuns.reachable s -> ServerRuns.unused_along rs s ->
  ServerRuns.reachable (ServerRuns.run rs s).
Proof.
  revert s. induction rs as [|r rs IH]; intros s Hs Hrs; simpl; [exact Hs|].
  destruct Hrs as [Hr Hrs]. apply IH; [|exact Hrs].
  now apply ServerRuns.reachable_step.
Qed.

(** C1, on a train of two seats.  Asha is given seat 1 and Bina seat 2; Asha
    cancels while nobody waits, so one seat is available again; Chitra then
    reserves and is given [2 - 1 + 1 = 2], the seat Bina still holds.  The
    run only creates a train, reserves and releases, with a PNR that is not
    in use at every draw, and it ends with two confirmed bookings on seat 2
    of the same train. *)
Theorem released_seat_is_sold_as_a_taken_one :
  let requests :=
    [ServerRuns.CreateTrain (Scenario.express 2) Scenario.admin;
     ServerRuns.Reserve (Scenario.seat_on 1 "Asha") Scenario.alice "PNRAAAAAA1";
     ServerRuns.Reserve (Scenario.seat_on 1 "Bina") Scenario.bob "PNRBBBBBB2";
     ServerRuns.Release "PNRAAAAAA1" Scenario.alice "PNRXXXXXX0";
     ServerRuns.Reserve (Scenario.seat_on 1 "Chitra") Scenario.carol "PNRCCCCCC3"] in
  let s := ServerRuns.run requests Server.initial_state in
  ServerRuns.reachable s
  /\ map (fun b => (pnr b, seat_number b)) (Sql.active_of 1 (Server.db s))
     = [("PNRBBBBBB2"%string, 2); ("PNRCCCCCC3"%string, 2)]
  /\ ~ NoDup (active_seats 1 (Server.db s)).
Proof.
  cbv zeta. split; [|split].
  - apply run_reachable; [constructor | repeat split].
  - reflexivity.
  - intros H. change (NoDup [2; 2]) in H.
    inversion H as [|x l Hin _]; subst. apply Hin. now left.
Qed.

(** C2 as stated fails.  Three seats are sold and seats 1 and 2 are
    cancelled with nobody waiting: seat 3 is the only one held and two seats
    are available.  The next reservation gets seat [3 - 2 + 1 = 2] although
    seat 1 is the smallest free one. *)
Lemma reserve_does_not_pick_lowest_free_seat :
  active_seats 1 (Server.db Scenario.three_sold_two_released) = [3]
  /\ fst (Server.create_booking (Scenario.seat_on 1 "Divya") Scenario.alice "PNRDDDDDD4"
            Scenario.three_sold_two_released)
     = Ok (Confirmed "PNRDDDDDD4" 2)
  /\ lowest_free (active_seats 1 (Server.db Scenario.three_sold_two_released)) 1
  /\ ~ lowest_free (active_seats 1 (Server.db Scenario.three_sold_two_released)) 2.
Proof.
  split; [reflexivity|]. split; [reflexivity|].
  change (active_seats 1 (Server.db Scenario.three_sold_two_released)) with [3].
  split.
  - unfold lowest_free. split; [lia|]. split.
    + intros [H | []]; lia.
    + intros k Hk; exfalso; lia.
  - intros (_ & _ & H). specialize (H 1 ltac:(lia)). simpl in H. lia.
Qed.

Section SeatFormula.
Import Sql.

(** When the held seats are exactly [1 .. k], seat [k + 1] is the lowest
    free one. *)
Lemma lowest_free_after_prefix held k :
  0 <= k ->
  (forall z, In z held <-> 1 <= z <= k) ->
  lowest_free held (k + 1).
Proof.
  intros Hk H. unfold lowest_free. repeat split.
  - lia.
  - intros Hin. apply H in Hin. lia.
  - intros z Hz. apply H. lia.
Qed.

Lemma active_seats_after_booking tid d nb :
  b_train_id nb = tid ->
  booking_status nb = confirmed ->
  active_seats tid (add_available tid (-1) (with_bookings d (bookings d ++ [nb])))
  = active_seats tid d ++ [seat_number nb].
Proof.
  intros Ht Hst. unfold active_seats, active_of; simpl.
  rewrite filter_app, map_app; simpl.
  unfold is_active. now rewrite Ht, Z.eqb_refl, Hst.
Qed.
End SeatFormula.

(** C2, amended.  A reservation on a train with a free seat is given seat
    [total_seats - available_seats + 1].  Whenever the confirmed bookings of
    the train hold exactly the seats [1 .. total_seats - available_seats],
    that is the smallest positive integer no confirmed booking holds.  The
    server's [create_booking] and the terminal's [book_ticket] agree. *)
Theorem reserve_assigns_next_seat_of_dense_train
    (bk : Server.BookingCreate) (u : Server.token) (p : string) (s : Server.state)
    (node row : train)
    (choice : Z) (psg : passenger) (tu : Terminal.user) (ts : Terminal.state)
    (tnode trow : train)
    (Hnode : LinkedList.search (Server.trains_linked_list s) (Server.train_id bk)
                               Server.by_id = Some node)
    (Hrow : Sql.select_train (Server.train_id bk) (Server.db s) = Some row)
    (Hfree : 0 < available_seats row <= total_seats row)
    (Hunused : Sql.pnr_taken p (Server.db s) = false)
    (Hdense : forall z, In z (active_seats (Server.train_id bk) (Server.db s))
                        <-> 1 <= z <= total_seats row - available_seats row)
    (Hchoice : 1 <= choice)
    (Htnode : Terminal.trains_list ts !! Z.to_nat (choice - 1) = Some tnode)
    (Htrow : Sql.select_train (t_id tnode) (Terminal.db ts) = Some trow)
    (Htfree : 0 < available_seats trow <= total_seats trow)
    (Htunused : Sql.pnr_taken p (Terminal.db ts) = false)
    (Htdense : forall z, In z (active_seats (t_id tnode) (Terminal.db ts))
                         <-> 1 <= z <= total_seats trow - available_seats trow) :
  (exists s',
      let seat := total_seats row - available_seats row + 1 in
      Server.create_booking bk u p s = (Ok (Confirmed p seat), s')
      /\ lowest_free (active_seats (Server.train_id bk) (Server.db s)) seat
      /\ active_seats (Server.train_id bk) (Server.db s')
         = active_seats (Server.train_id bk) (Server.db s) ++ [seat])
  /\ (exists ts',
      let seat := total_seats trow - available_seats trow + 1 in
      Terminal.book_ticket choice psg p tu ts = (Ok (Terminal.TicketConfirmed p seat), ts')
      /\ lowest_free (active_seats (t_id tnode) (Terminal.db ts)) seat
      /\ active_seats (t_id tnode) (Terminal.db ts')
         = active_seats (t_id tnode) (Terminal.db ts) ++ [seat]).
Proof.
  split.
  - eexists. cbv zeta. split.
    { apply (create_booking_confirmed bk u p s node row); [assumption .. | lia | assumption]. }
    split.
    + apply lowest_free_after_prefix; [lia | exact Hdense].
    + cbn [Server.db]. now rewrite active_seats_after_booking.
  - eexists. cbv zeta. split.
    { apply (book_ticket_confirmed choice psg p tu ts tnode trow);
        [assumption .. | lia | assumption]. }
    split.
    + apply lowest_free_after_prefix; [lia | exact Htdense].
    + cbn [Terminal.db]. now rewrite active_seats_after_booking.
Qed.

Lemma reserve_assigns_next_seat_of_dense_train_witness :
  fst (Server.create_booking (Scenario.seat_on 1 "Bina") Scenario.bob "PNRBBBBBB2"
         Scenario.one_of_two_sold)
  = Ok (Confirmed "PNRBBBBBB2" 2)
  /\ fst (Terminal.book_ticket 1 (Scenario.traveller "Bina") "PNRBBBBBB2"
            TerminalScenario.bob TerminalScenario.one_sold)
     = Ok (Terminal.TicketConfirmed "PNRBBBBBB2" 2).
Proof.
  pose (t := {| t_id := 1; train_number := "12001"; train_name := "Express";
                total_seats := 2; available_seats := 1 |}).
  destruct (reserve_assigns_next_seat_of_dense_train
              (Scenario.seat_on 1 "Bina") Scenario.bob "PNRBBBBBB2"
              Scenario.one_of_two_sold t t
              1 (Scenario.traveller "Bina") TerminalScenario.bob
              TerminalScenario.one_sold t t)
    as [(s' & Hs & _) (ts' & Hts & _)].
  - reflexivity.
  - reflexivity.
  - simpl. lia.
  - reflexivity.
  - intros z. change (In z [1] <-> 1 <= z <= 2 - 1). simpl. lia.
  - lia.
  - reflexivity.
  - reflexivity.
  - simpl. lia.
  - reflexivity.
  - intros z. change (In z [1] <-> 1 <= z <= 2 - 1). simpl. lia.
  - rewrite Hs, Hts. split; reflexivity.
Defined.

(** ** Changing the number of seats *)

Section Capacity.
Import Sql Server.

Lemma select_train_rewritten tid d (f : train -> train) t :
  (forall x, t_id (f x) = t_id x) ->
  select_train tid d = Some t ->
  select_train tid
    (with_trains d (map (fun x => if t_id x =? tid then f x else x) (trains d)))
  = Some (f t).
Proof.
  intros Hf. unfold select_train; simpl.
  induction (trains d) as [|x xs IH]; simpl; [discriminate|].
  destruct (t_id x =? tid) eqn:E.
  - intros [= ->]. now rewrite Hf, E.
  - rewrite E. exact IH.
Qed.
End Capacity.




(** ** What a write decision reads *)

(** C9 as stated fails.  Three states of the server share the same tables:
    train 1 has its single seat sold to Asha and Bina waits at position 1.
    Where the in-memory queue holds Bina, Asha's cancellation promotes her;
    where the queue is empty it gives the seat back to the train instead, and
    the tables end up different.  Where the linked list does not hold the
    train, a reservation is refused with 404 although the train has its row;
    where it does, the reservation is put on the waiting list. *)
Lemma write_decisions_read_the_mirror :
  Server.db Scenario.one_sold_one_waiting = Server.db Scenario.one_sold_queue_lost
  /\ Server.db Scenario.one_sold_one_waiting = Server.db Scenario.one_sold_list_lost
  /\ (let synced := Server.cancel_booking "PNRAAAAAA1" Scenario.alice "PNRXXXXXX0"
                      Scenario.one_sold_one_waiting in
      let lost := Server.cancel_booking "PNRAAAAAA1" Scenario.alice "PNRXXXXXX0"
                    Scenario.one_sold_queue_lost in
      fst synced = Ok (CancelledPromoted "PNRXXXXXX0")
      /\ fst lost = Ok Cancelled
      /\ Server.db (snd synced) <> Server.db (snd lost))
  /\ fst (Server.create_booking (Scenario.seat_on 1 "Chitra") Scenario.carol "PNRCCCCCC3"
            Scenario.one_sold_one_waiting) = Ok (Waiting 2)
  /\ fst (Server.create_booking (Scenario.seat_on 1 "Chitra") Scenario.carol "PNRCCCCCC3"
            Scenario.one_sold_list_lost)
     = HTTPException 404 "Train not found in LinkedList".
Proof.
  repeat split.
  intros H. apply (f_equal (fun d => length (waiting_list d))) in H.
  vm_compute in H. discriminate.
Qed.

Section MirrorReads.
Import Sql.

Lemma create_booking_reads bk u p (s1 s2 : Server.state) :
  Server.db s1 = Server.db s2 ->
  (LinkedList.search (Server.trains_linked_list s1) (Server.train_id bk) Server.by_id = None
   <-> LinkedList.search (Server.trains_linked_list s2) (Server.train_id bk) Server.by_id
       = None) ->
  Server.queue_of (Server.train_id bk) s1 = Server.queue_of (Server.train_id bk) s2 ->
  fst (Server.create_booking bk u p s1) = fst (Server.create_booking bk u p s2)
  /\ Server.db (snd (Server.create_booking bk u p s1))
     = Server.db (snd (Server.create_booking bk u p s2)).
Proof.
  intros Hdb Hlist Hq. unfold Server.create_booking.
  destruct (LinkedList.search (Server.trains_linked_list s1) _ _) as [n1|] eqn:E1;
    destruct (LinkedList.search (Server.trains_linked_list s2) _ _) as [n2|] eqn:E2;
    try (destruct Hlist as [H12 H21];
         first [ specialize (H12 eq_refl) | specialize (H21 eq_refl) ]; discriminate).
  - rewrite <- Hdb, <- Hq.
    destruct (select_train _ _) as [row|]; [|now split].
    destruct (0 <? available_seats row); [|now split].
    destruct (insert_booking _ _); now split.
  - now split.
Qed.

Lemma cancel_booking_reads pn u np (s1 s2 : Server.state) :
  Server.db s1 = Server.db s2 ->
  (forall b, select_booking pn (Server.db s1) = Some b ->
             Server.queue_of (b_train_id b) s1 = Server.queue_of (b_train_id b) s2) ->
  fst (Server.cancel_booking pn u np s1) = fst (Server.cancel_booking pn u np s2)
  /\ Server.db (snd (Server.cancel_booking pn u np s1))
     = Server.db (snd (Server.cancel_booking pn u np s2)).
Proof.
  intros Hdb Hq. unfold Server.cancel_booking. rewrite <- Hdb.
  destruct (select_booking pn (Server.db s1)) as [b|]; [|now split].
  specialize (Hq b eq_refl).
  destruct (negb _ && negb _); [now split|].
  destruct (status_eqb _ _); [now split|].
  unfold Server.queue_of in Hq.
  destruct (Server.waiting_queues s1 !! b_train_id b) as [[|x xs]|];
    destruct (Server.waiting_queues s2 !! b_train_id b) as [[|y ys]|];
    simpl in Hq; try discriminate; simpl; try (now split).
  injection Hq as -> ->.
  destruct (insert_booking _ _); now split.
Qed.

Lemma cancel_ticket_reads pn np u (s1 s2 : Terminal.state) :
  Terminal.db s1 = Terminal.db s2 ->
  (forall b, select_booking_of pn (Terminal.u_id u) (Terminal.db s1) = Some b ->
             Terminal.waiting_queues s1 !! b_train_id b
             = Terminal.waiting_queues s2 !! b_train_id b) ->
  fst (Terminal.cancel_ticket pn np u s1) = fst (Terminal.cancel_ticket pn np u s2)
  /\ Terminal.db (snd (Terminal.cancel_ticket pn np u s1))
     = Terminal.db (snd (Terminal.cancel_ticket pn np u s2)).
Proof.
  intros Hdb Hq. unfold Terminal.cancel_ticket. rewrite <- Hdb.
  destruct (select_booking_of pn _ _) as [b|]; [|now split].
  specialize (Hq b eq_refl). rewrite <- Hq.
  destruct (status_eqb _ _); [now split|].
  destruct (Terminal.waiting_queues s1 !! b_train_id b) as [[|x xs]|];
    simpl; try (now split).
  destruct (insert_booking _ _); now split.
Qed.
End MirrorReads.

(** C9, amended.  What [create_booking], [cancel_booking] and the terminal's
    [cancel_ticket] answer and write to the tables is determined by the
    tables together with two facts of the in-memory structures: whether the
    linked list holds the train (for a reservation) and what the waiting
    queue of the train holds.  Two calls on states that agree on these give
    the same result and the same tables, whatever else the in-memory
    structures hold: the seat counts cached in the linked list, the
    passenger cache and the queues of other trains are not consulted. *)
Theorem write_decisions_read_tables_list_membership_and_queue
    (bk : Server.BookingCreate) (u : Server.token) (p pn np : string)
    (s1 s2 : Server.state) (tu : Terminal.user) (ts1 ts2 : Terminal.state)
    (Hdb : Server.db s1 = Server.db s2)
    (Hlist : LinkedList.search (Server.trains_linked_list s1) (Server.train_id bk)
                               Server.by_id = None
             <-> LinkedList.search (Server.trains_linked_list s2) (Server.train_id bk)
                                   Server.by_id = None)
    (Hqueue : Server.queue_of (Server.train_id bk) s1
              = Server.queue_of (Server.train_id bk) s2)
    (Hcqueue : forall b, Sql.select_booking pn (Server.db s1) = Some b ->
                         Server.queue_of (b_train_id b) s1
                         = Server.queue_of (b_train_id b) s2)
    (Htdb : Terminal.db ts1 = Terminal.db ts2)
    (Htqueue : forall b,
        Sql.select_booking_of pn (Terminal.u_id tu) (Terminal.db ts1) = Some b ->
        Terminal.waiting_queues ts1 !! b_train_id b
        = Terminal.waiting_queues ts2 !! b_train_id b) :
  (fst (Server.create_booking bk u p s1) = fst (Server.create_booking bk u p s2)
   /\ Server.db (snd (Server.create_booking bk u p s1))
      = Server.db (snd (Server.create_booking bk u p s2)))
  /\ (fst (Server.cancel_booking pn u np s1) = fst (Server.cancel_booking pn u np s2)
      /\ Server.db (snd (Server.cancel_booking pn u np s1))
         = Server.db (snd (Server.cancel_booking pn u np s2)))
  /\ (fst (Terminal.cancel_ticket pn np tu ts1) = fst (Terminal.cancel_ticket pn np tu ts2)
      /\ Terminal.db (snd (Terminal.cancel_ticket pn np tu ts1))
         = Terminal.db (snd (Terminal.cancel_ticket pn np tu ts2))).
Proof.
  split; [|split].
  - now apply create_booking_reads.
  - now apply cancel_booking_reads.
  - now apply cancel_ticket_reads.
Qed.

Lemma write_decisions_read_tables_list_membership_and_queue_witness :
  Server.trains_linked_list Scenario.two_sold
  <> Server.trains_linked_list Scenario.two_sold_stale_mirror
  /\ fst (Server.cancel_booking "PNRAAAAAA1" Scenario.alice "PNRXXXXXX0" Scenario.two_sold)
     = fst (Server.cancel_booking "PNRAAAAAA1" Scenario.alice "PNRXXXXXX0"
              Scenario.two_sold_stale_mirror)
  /\ fst (Server.create_booking (Scenario.seat_on 1 "Chitra") Scenario.alice "PNRCCCCCC3"
            Scenario.two_sold)
     = fst (Server.create_booking (Scenario.seat_on 1 "Chitra") Scenario.alice "PNRCCCCCC3"
              Scenario.two_sold_stale_mirror).
Proof.
  destruct (write_decisions_read_tables_list_membership_and_queue
              (Scenario.seat_on 1 "Chitra") Scenario.alice
              "PNRCCCCCC3" "PNRAAAAAA1" "PNRXXXXXX0"
              Scenario.two_sold Scenario.two_sold_stale_mirror
              TerminalScenario.alice
              TerminalScenario.two_sold TerminalScenario.two_sold_no_list)
    as ((Hr & _) & (Hc & _) & _).
  - reflexivity.
  - split; discriminate.
  - reflexivity.
  - intros b [= <-]. reflexivity.
  - reflexivity.
  - intros b [= <-]. reflexivity.
  - split; [discriminate | split; [exact Hc | exact Hr]].
Defined.

(** ** Coherence of the states the server reaches *)

Section Coherence.
Import Sql Server ServerRuns.

Lemma same_id_same_row (l : list train) a b :
  NoDup (map t_id l) -> In a l -> In b l -> t_id a = t_id b -> a = b.
Proof.
  induction l as [|x xs IH]; simpl; [contradiction|].
  intros Hnd [-> | Ha] [-> | Hb] Heq; inversion Hnd as [|? ? Hnotin Hnd']; subst.
  - reflexivity.
  - exfalso. apply Hnotin. rewrite Heq. now apply in_map.
  - exfalso. apply Hnotin. rewrite <- Heq. now apply in_map.
  - now apply IH.
Qed.

Lemma add_available_ids tid delta d :
  map t_id (trains (add_available tid delta d)) = map t_id (trains d).
Proof.
  unfold add_available; simpl. rewrite map_map. apply map_ext.
  intros t. now destruct (t_id t =? tid).
Qed.

Lemma add_available_in tid delta d t' :
  In t' (trains (add_available tid delta d)) ->
  exists t, In t (trains d) /\ t_id t' = t_id t
            /\ (t_id t <> tid -> t' = t).
Proof.
  unfold add_available; simpl. intros H.
  apply in_map_iff in H as (t & <- & Hin). exists t. split; [exact Hin|].
  destruct (Z.eqb_spec (t_id t) tid); simpl; split; congruence.
Qed.

Lemma in_add_available tid delta d t :
  In t (trains d) ->
  exists t', In t' (trains (add_available tid delta d)) /\ t_id t' = t_id t.
Proof.
  intros Hin. unfold add_available; simpl.
  exists (if t_id t =? tid then set_available t (available_seats t + delta) else t).
  split.
  - apply in_map_iff. exists t. now split.
  - now destruct (t_id t =? tid).
Qed.

Lemma promoted_row_origin tid d w' :
  In w' (waiting_list (shift_waiting tid (delete_first_waiting tid d))) ->
  exists w, In w (waiting_list d) /\ w_train_id w' = w_train_id w.
Proof.
  unfold shift_waiting, delete_first_waiting; simpl. intros H.
  apply in_map_iff in H as (w & <- & Hin).
  apply filter_In in Hin as [Hin _].
  exists w. split; [exact Hin|]. now destruct (w_train_id w =? tid).
Qed.

Lemma waiting_of_in tid d w :
  In w (waiting_of tid d) -> In w (waiting_list d) /\ w_train_id w = tid.
Proof.
  unfold waiting_of. intros H. apply filter_In in H as [Hin Ht].
  split; [exact Hin | now apply Z.eqb_eq].
Qed.

Lemma waiting_of_none tid d :
  (forall w, In w (waiting_list d) -> w_train_id w <> tid) ->
  waiting_of tid d = [].
Proof.
  intros H. destruct (waiting_of tid d) as [|w ws] eqn:E; [reflexivity|].
  assert (In w (waiting_of tid d)) as Hin by (rewrite E; now left).
  apply waiting_of_in in Hin as [Hin Ht]. now destruct (H w Hin).
Qed.

Lemma queue_of_insert_same tid q (s s' : state) qs :
  waiting_queues s' = <[tid := q]> qs -> queue_of tid s' = q.
Proof. intros H. unfold queue_of. now rewrite H, lookup_insert_eq. Qed.

Lemma queue_of_insert_other tid tid' q (s s' : state) :
  waiting_queues s' = <[tid := q]> (waiting_queues s) ->
  tid' <> tid -> queue_of tid' s' = queue_of tid' s.
Proof.
  intros H Hne. unfold queue_of. rewrite H, lookup_insert_ne by congruence.
  reflexivity.
Qed.

Lemma queue_of_same tid (s s' : state) :
  waiting_queues s' = waiting_queues s -> queue_of tid s' = queue_of tid s.
Proof. intros H. unfold queue_of. now rewrite H. Qed.

(** In a coherent state the table and the queue of a train have the same
    length, and are empty together. *)
Lemma coherent_lengths s tid :
  coherent s -> length (waiting_of tid (db s)) = length (queue_of tid s).
Proof.
  intros H. pose proof (queue_mirrors_table s H tid) as E.
  apply (f_equal (@length _)) in E. now rewrite !length_map in E.
Qed.

Lemma coherent_empty_queue s tid :
  coherent s -> queue_of tid s = [] -> waiting_of tid (db s) = [].
Proof.
  intros H Hq. pose proof (coherent_lengths s tid H) as E. rewrite Hq in E.
  now apply length_zero_iff_nil.
Qed.

Lemma coherent_initial : coherent initial_state.
Proof.
  split; simpl; try easy.
  - constructor.
Qed.
End Coherence.

Section Preservation.
Import Sql Server ServerRuns.

(** A seat is taken from or given back to a train nobody waits for. *)
Lemma coherent_seat_change s s' tid delta bs :
  coherent s ->
  waiting_of tid (db s) = [] ->
  db s' = add_available tid delta (with_bookings (db s) bs) ->
  waiting_queues s' = waiting_queues s ->
  coherent s'.
Proof.
  intros H Hnone Hdb Hq.
  assert (forall x, waiting_of x (db s') = waiting_of x (db s)) as Hw
    by (intros x; now rewrite Hdb).
  split.
  - rewrite Hdb, add_available_ids. exact (ids_unique s H).
  - intros t' Hin. rewrite Hdb in Hin.
    apply add_available_in in Hin as (t & Hin & Hid & _).
    rewrite Hid, Hdb. exact (ids_issued s H t Hin).
  - intros w Hin. rewrite Hdb in Hin.
    destruct (waiting_has_train s H w Hin) as (t & Ht & Hid).
    destruct (in_add_available tid delta (with_bookings (db s) bs) t Ht) as (t' & Ht' & Hid').
    exists t'. rewrite Hdb. split; [exact Ht' | congruence].
  - intros x. rewrite Hw, (queue_of_same x s s' Hq). exact (queue_mirrors_table s H x).
  - intros x. rewrite Hw. exact (positions_contiguous s H x).
  - intros t' Hin Hav. rewrite Hw. rewrite Hdb in Hin.
    apply add_available_in in Hin as (t & Hin & Hid & Hsame).
    destruct (Z.eq_dec (t_id t) tid) as [E | E].
    + rewrite Hid, E. exact Hnone.
    + rewrite (Hsame E) in *. exact (no_idle_seat s H t Hin Hav).
Qed.

(** A passenger joins the waiting list of a train without a free seat. *)
Lemma coherent_enqueue s s' tid row uid psg pos :
  coherent s ->
  select_train tid (db s) = Some row ->
  available_seats row <= 0 ->
  pos = Queue.size (queue_of tid s) + 1 ->
  db s' = insert_waiting {| w_train_id := tid; w_user_id := uid;
                            w_passenger := psg; position := pos |} (db s) ->
  waiting_queues s'
  = <[tid := Queue.enqueue (queue_of tid s)
               {| wd_user_id := uid; wd_passenger := psg; wd_position := pos |}]>
      (waiting_queues s) ->
  coherent s'.
Proof.
  intros H Hrow Hfull Hpos Hdb Hq.
  destruct (select_train_in _ _ _ Hrow) as [Hrin Hrid].
  assert (forall x, x <> tid -> waiting_of x (db s') = waiting_of x (db s)) as Hother
    by (intros x Hx; rewrite Hdb; apply waiting_of_insert_other; simpl; congruence).
  assert (waiting_of tid (db s')
          = waiting_of tid (db s)
            ++ [ {| w_train_id := tid; w_user_id := uid;
                    w_passenger := psg; position := pos |} ]) as Hsame
    by (rewrite Hdb; now apply waiting_of_insert_same).
  split.
  - rewrite Hdb. exact (ids_unique s H).
  - rewrite Hdb. exact (ids_issued s H).
  - intros w Hin. rewrite Hdb in Hin. simpl in Hin.
    apply in_app_or in Hin as [Hin | [<- | []]].
    + rewrite Hdb. exact (waiting_has_train s H w Hin).
    + exists row. rewrite Hdb. now split.
  - intros x. destruct (Z.eq_dec x tid) as [-> | Hx].
    + rewrite Hsame, (queue_of_insert_same tid _ s s' _ Hq).
      unfold Queue.enqueue. rewrite !map_app, (queue_mirrors_table s H tid).
      reflexivity.
    + rewrite (Hother x Hx), (queue_of_insert_other tid x _ s s' Hq Hx).
      exact (queue_mirrors_table s H x).
  - intros x. destruct (Z.eq_dec x tid) as [-> | Hx].
    + rewrite Hsame. apply contiguous_snoc; [exact (positions_contiguous s H tid)|].
      simpl. rewrite Hpos. unfold Queue.size.
      now rewrite (coherent_lengths s tid H).
    + rewrite (Hother x Hx). exact (positions_contiguous s H x).
  - intros t Hin Hav. rewrite Hdb in Hin. simpl in Hin.
    destruct (Z.eq_dec (t_id t) tid) as [E | E].
    + assert (t = row) as ->
        by (apply (same_id_same_row (trains (db s)));
            [exact (ids_unique s H) | assumption | assumption | congruence]).
      lia.
    + rewrite (Hother _ E). exact (no_idle_seat s H t Hin Hav).
Qed.

(** The head of a waiting list is promoted. *)
Lemma coherent_promote s s' tid first rest bs :
  coherent s ->
  queue_of tid s = first :: rest ->
  db s' = shift_waiting tid (delete_first_waiting tid (with_bookings (db s) bs)) ->
  waiting_queues s' = <[tid := rest]> (waiting_queues s) ->
  coherent s'.
Proof.
  intros H Hqueue Hdb Hq.
  pose proof (queue_mirrors_table s H tid) as Hmirror. rewrite Hqueue in Hmirror.
  destruct (waiting_of tid (db s)) as [|w ws] eqn:Hrows; [discriminate|].
  simpl in Hmirror. apply (f_equal (@tl _)) in Hmirror. simpl in Hmirror.
  rename Hmirror into Htail.
  pose proof (positions_contiguous s H tid) as Hpos. rewrite Hrows in Hpos.
  assert (forall x, x <> tid -> waiting_of x (db s') = waiting_of x (db s)) as Hother
    by (intros x Hx; rewrite Hdb; now rewrite waiting_of_promote_other).
  assert (waiting_of tid (db s') = map (fun w => set_position w (position w - 1)) ws)
    as Hsame
    by (rewrite Hdb; apply (promote_waiting_of tid _ w ws); [exact Hrows | exact Hpos]).
  split.
  - rewrite Hdb. exact (ids_unique s H).
  - rewrite Hdb. exact (ids_issued s H).
  - intros w' Hin. rewrite Hdb in Hin.
    apply promoted_row_origin in Hin as (w0 & Hin & ->).
    rewrite Hdb. exact (waiting_has_train s H w0 Hin).
  - intros x. destruct (Z.eq_dec x tid) as [-> | Hx].
    + rewrite Hsame, (queue_of_insert_same tid _ s s' _ Hq), map_map. exact Htail.
    + rewrite (Hother x Hx), (queue_of_insert_other tid x _ s s' Hq Hx).
      exact (queue_mirrors_table s H x).
  - intros x. destruct (Z.eq_dec x tid) as [-> | Hx].
    + rewrite Hsame. exact (contiguous_shift w ws Hpos).
    + rewrite (Hother x Hx). exact (positions_contiguous s H x).
  - intros t Hin Hav. rewrite Hdb in Hin. simpl in Hin.
    destruct (Z.eq_dec (t_id t) tid) as [E | E].
    + pose proof (no_idle_seat s H t Hin Hav) as Hidle.
      rewrite E, Hrows in Hidle. discriminate.
    + rewrite (Hother _ E). exact (no_idle_seat s H t Hin Hav).
Qed.

(** A train is created. *)
Lemma coherent_create_train s s' number name total new_id d :
  coherent s ->
  insert_train number name total total (db s) = Some (new_id, d) ->
  db s' = d ->
  waiting_queues s' = <[new_id := []]> (waiting_queues s) ->
  coherent s'.
Proof.
  intros H Hins Hdb Hq. unfold insert_train in Hins.
  destruct (train_number_taken number (db s)); [discriminate|].
  injection Hins as <- <-.
  assert (forall t, In t (trains (db s)) -> t_id t <> trains_seq (db s) + 1) as Hnew
    by (intros t Hin; pose proof (ids_issued s H t Hin); lia).
  assert (waiting_of (trains_seq (db s) + 1) (db s) = []) as Hnone.
  { apply waiting_of_none. intros w Hin Heq.
    destruct (waiting_has_train s H w Hin) as (t & Ht & Hid).
    apply (Hnew t Ht). congruence. }
  assert (forall x, waiting_of x (db s') = waiting_of x (db s)) as Hw
    by (intros x; now rewrite Hdb).
  split.
  - rewrite Hdb; simpl. rewrite map_app; simpl.
    apply List.NoDup_app.
    + exact (ids_unique s H).
    + repeat constructor. intros [].
    + intros x Hx [<- | []]. apply in_map_iff in Hx as (t & Hid & Hin).
      now apply (Hnew t Hin).
  - intros t Hin. rewrite Hdb in *; simpl in *.
    apply in_app_or in Hin as [Hin | [<- | []]]; simpl; [|lia].
    pose proof (ids_issued s H t Hin). lia.
  - intros w Hin. rewrite Hdb in *; simpl in *.
    destruct (waiting_has_train s H w Hin) as (t & Ht & Hid).
    exists t. split; [apply in_or_app; now left | exact Hid].
  - intros x. rewrite Hw. destruct (Z.eq_dec x (trains_seq (db s) + 1)) as [-> | Hx].
    + now rewrite Hnone, (queue_of_insert_same _ _ s s' _ Hq).
    + rewrite (queue_of_insert_other _ x _ s s' Hq Hx).
      exact (queue_mirrors_table s H x).
  - intros x. rewrite Hw. exact (positions_contiguous s H x).
  - intros t Hin Hav. rewrite Hw. rewrite Hdb in Hin; simpl in Hin.
    apply in_app_or in Hin as [Hin | [<- | []]]; simpl.
    + exact (no_idle_seat s H t Hin Hav).
    + exact Hnone.
Qed.
End Preservation.

Section Invariant.
Import Sql Server ServerRuns.

Lemma coherent_create_train_step t u s :
  coherent s -> coherent (snd (create_train t u s)).
Proof.
  intros H. unfold create_train.
  destruct (negb (is_admin u)); [exact H|].
  destruct (insert_train _ _ _ _ (db s)) as [[new_id d]|] eqn:E; [|exact H].
  eapply coherent_create_train; [exact H | exact E | reflexivity | reflexivity].
Qed.

Lemma coherent_create_booking_step bk u p s :
  coherent s -> coherent (snd (create_booking bk u p s)).
Proof.
  intros H. unfold create_booking.
  destruct (LinkedList.search _ _ _) as [node|]; [|exact H].
  destruct (select_train (train_id bk) (db s)) as [row|] eqn:Erow; [|exact H].
  destruct (select_train_in _ _ _ Erow) as [Hin Hid].
  destruct (0 <? available_seats row) eqn:Eav.
  - apply Z.ltb_lt in Eav.
    unfold insert_booking. destruct (pnr_taken _ _); [exact H|].
    eapply (coherent_seat_change s _ (train_id bk) (-1));
      [exact H | | reflexivity | reflexivity].
    rewrite <- Hid. exact (no_idle_seat s H row Hin Eav).
  - apply Z.ltb_ge in Eav.
    eapply (coherent_enqueue s _ (train_id bk) row);
      [exact H | exact Erow | exact Eav | reflexivity | reflexivity | reflexivity].
Qed.

Lemma coherent_cancel_booking_step p u np s :
  coherent s -> pnr_taken np (db s) = false ->
  coherent (snd (cancel_booking p u np s)).
Proof.
  intros H Hnp. unfold cancel_booking.
  destruct (select_booking p (db s)) as [b|]; [|exact H].
  destruct (negb _ && negb _); [exact H|].
  destruct (status_eqb _ _); [exact H|].
  assert (queue_of (b_train_id b) s = [] ->
          coherent (release_seat (b_train_id b) (cancel_status p (db s))
                      (delete p (passenger_cache s)) s)) as Hrelease.
  { intros Hq.
    eapply (coherent_seat_change s _ (b_train_id b) 1);
      [exact H | now apply coherent_empty_queue | reflexivity | reflexivity]. }
  destruct (waiting_queues s !! b_train_id b) as [[|first rest]|] eqn:Eq.
  - apply Hrelease. unfold queue_of. now rewrite Eq.
  - simpl. rewrite insert_booking_unused
      by (simpl; now rewrite pnr_taken_cancel_status).
    eapply (coherent_promote s _ (b_train_id b) first rest);
      [exact H | | reflexivity | reflexivity].
    unfold queue_of. now rewrite Eq.
  - apply Hrelease. unfold queue_of. now rewrite Eq.
Qed.

Lemma coherent_step r s :
  coherent s -> draws_unused_pnr r s -> coherent (handle r s).
Proof.
  intros H Hr. destruct r as [t u | bk u p | p u np]; simpl.
  - now apply coherent_create_train_step.
  - now apply coherent_create_booking_step.
  - now apply coherent_cancel_booking_step.
Qed.

Lemma reachable_coherent s : reachable s -> coherent s.
Proof.
  induction 1 as [|s r _ IH Hr].
  - exact coherent_initial.
  - now apply coherent_step.
Qed.

(** In a reachable state a queue that is not empty stands for a waiting
    list of the same train that starts with the same passenger and is
    numbered from 1. *)
Lemma reachable_queue_mirrors_table s tid first rest :
  reachable s ->
  queue_of tid s = first :: rest ->
  exists w ws,
    waiting_of tid (db s) = w :: ws
    /\ contiguous (w :: ws)
    /\ waiting_entry w = queue_entry first
    /\ length ws = length rest.
Proof.
  intros Hs Hq. pose proof (reachable_coherent s Hs) as H.
  pose proof (queue_mirrors_table s H tid) as Hm. rewrite Hq in Hm.
  pose proof (positions_contiguous s H tid) as Hpos.
  pose proof (coherent_lengths s tid H) as Hlen. rewrite Hq in Hlen.
  destruct (waiting_of tid (db s)) as [|w ws]; [discriminate|].
  exists w, ws. simpl in Hm, Hlen.
  repeat split; [exact Hpos | congruence | lia].
Qed.
End Invariant.

(** C8.  In every state the server reaches from an empty database by
    creating trains, reserving and releasing, a train with
    [available_seats > 0] has no row in [waiting_list] and nothing in its
    queue.  No handler checks this: a reservation joins the waiting list only
    when no seat is available, and a release gives the seat back to the train
    only when the queue is empty. *)
Theorem no_seat_idle_while_someone_waits
    (s : Server.state) (t : train)
    (Hreach : ServerRuns.reachable s)
    (Htrain : In t (trains (Server.db s)))
    (Hfree : 0 < available_seats t) :
  Sql.waiting_of (t_id t) (Server.db s) = []
  /\ Server.queue_of (t_id t) s = [].
Proof.
  pose proof (reachable_coherent s Hreach) as H.
  pose proof (ServerRuns.no_idle_seat s H t Htrain Hfree) as Hnone.
  split; [exact Hnone|].
  pose proof (coherent_lengths s (t_id t) H) as Hlen. rewrite Hnone in Hlen.
  symmetry in Hlen. now apply length_zero_iff_nil.
Qed.

Lemma no_seat_idle_while_someone_waits_witness :
  Sql.waiting_of 1 (Server.db Scenario.two_sold_one_released) = []
  /\ Server.queue_of 1 Scenario.two_sold_one_released = [].
Proof.
  apply (no_seat_idle_while_someone_waits Scenario.two_sold_one_released
           {| t_id := 1; train_number := "12001"; train_name := "Express";
              total_seats := 2; available_seats := 1 |}).
  - apply run_reachable; [apply run_reachable; [constructor|] |]; repeat split.
  - simpl. now left.
  - simpl. lia.
Defined.

(** ** Accounting of seats in the states the server reaches *)

Section Accounting.
Import Sql Server ServerRuns.

Lemma add_available_row tid delta d t' :
  In t' (trains (add_available tid delta d)) ->
  exists t, In t (trains d) /\ t_id t' = t_id t /\ total_seats t' = total_seats t
            /\ available_seats t'
               = available_seats t + (if t_id t =? tid then delta else 0).
Proof.
  unfold add_available; simpl. intros H.
  apply in_map_iff in H as (t & <- & Hin). exists t. split; [exact Hin|].
  destruct (t_id t =? tid); simpl; repeat split; lia.
Qed.

Lemma cancel_unmatched p (l : list booking) :
  (forall b, In b l -> pnr b <> p) ->
  map (fun b => if String.eqb (pnr b) p then set_status b cancelled else b) l = l.
Proof.
  induction l as [|x xs IH]; intros H; simpl; [reflexivity|].
  assert (String.eqb (pnr x) p = false) as -> by (apply String.eqb_neq, H; now left).
  f_equal. apply IH. intros b Hb. apply H. now right.
Qed.

(** Cancelling a confirmed booking takes one booking away from the active
    ones of its train and none from those of another train. *)
Lemma active_after_cancel p tid (l : list booking) b :
  NoDup (map pnr l) ->
  List.find (fun b => String.eqb (pnr b) p) l = Some b ->
  booking_status b = confirmed ->
  Z.of_nat (length (List.filter (is_active tid)
              (map (fun b => if String.eqb (pnr b) p then set_status b cancelled else b) l)))
  + (if b_train_id b =? tid then 1 else 0)
  = Z.of_nat (length (List.filter (is_active tid) l)).
Proof.
  induction l as [|x xs IH]; simpl; [discriminate|].
  intros Hnd Hfind Hst. inversion Hnd as [|? ? Hnotin Hnd']; subst.
  destruct (String.eqb (pnr x) p) eqn:E.
  - injection Hfind as ->. apply String.eqb_eq in E.
    rewrite cancel_unmatched.
    + assert (is_active tid (set_status b cancelled) = false) as ->
        by (unfold is_active; simpl; apply andb_false_r).
      unfold is_active. rewrite Hst.
      destruct (b_train_id b =? tid); simpl; lia.
    + intros y Hy Hp. apply Hnotin. rewrite E, <- Hp. now apply in_map.
  - specialize (IH Hnd' Hfind Hst).
    destruct (is_active tid x); simpl; lia.
Qed.

Lemma confirmed_after_cancel p (l : list booking) b' :
  In b' (map (fun b => if String.eqb (pnr b) p then set_status b cancelled else b) l) ->
  booking_status b' = confirmed ->
  In b' l.
Proof.
  intros Hin Hst. apply in_map_iff in Hin as (b & Hb & Hin).
  destruct (String.eqb (pnr b) p); subst; [discriminate | exact Hin].
Qed.

Lemma pnrs_unique_after_insert (l : list booking) nb :
  NoDup (map pnr l) ->
  (forall b, In b l -> pnr b <> pnr nb) ->
  NoDup (map pnr (l ++ [nb])).
Proof.
  intros Hnd Hfresh. rewrite map_app; simpl. apply List.NoDup_app.
  - exact Hnd.
  - repeat constructor. intros [].
  - intros x Hx [<- | []]. apply in_map_iff in Hx as (b & Hp & Hin).
    now apply (Hfresh b Hin).
Qed.

Lemma active_of_insert tid d nb :
  active_of tid (with_bookings d (bookings d ++ [nb]))
  = active_of tid d ++ (if is_active tid nb then [nb] else []).
Proof.
  unfold active_of; simpl. rewrite filter_app; simpl.
  now destruct (is_active tid nb).
Qed.

Lemma accounted_initial : accounted initial_state.
Proof. split; simpl; try easy. constructor. Qed.
End Accounting.

Section AccountingSteps.
Import Sql Server ServerRuns.

Lemma active_of_in tid d b :
  In b (active_of tid d) ->
  In b (bookings d) /\ b_train_id b = tid /\ booking_status b = confirmed.
Proof.
  unfold active_of, is_active. intros H. apply filter_In in H as [Hin Hb].
  apply andb_true_iff in Hb as [Ht Hst]. apply Z.eqb_eq in Ht.
  destruct (booking_status b); [auto | discriminate].
Qed.

Lemma in_add_available_row tid delta d t :
  In t (trains d) ->
  exists t', In t' (trains (add_available tid delta d))
             /\ t_id t' = t_id t /\ total_seats t' = total_seats t.
Proof.
  intros Hin. unfold add_available; simpl.
  exists (if t_id t =? tid then set_available t (available_seats t + delta) else t).
  split.
  - apply in_map_iff. exists t. now split.
  - now destruct (t_id t =? tid).
Qed.

Lemma accounted_waiting s s' w :
  accounted s -> db s' = insert_waiting w (db s) -> accounted s'.
Proof.
  intros H Hdb. split; rewrite Hdb.
  - exact (pnrs_unique s H).
  - exact (seats_accounted s H).
  - exact (seats_in_range s H).
Qed.

Lemma accounted_create_train s s' number name total new_id d :
  coherent s -> accounted s ->
  insert_train number name total total (db s) = Some (new_id, d) ->
  db s' = d ->
  accounted s'.
Proof.
  intros Hc H Hins Hdb. unfold insert_train in Hins.
  destruct (train_number_taken number (db s)); [discriminate|].
  injection Hins as <- <-.
  split; rewrite Hdb; simpl.
  - exact (pnrs_unique s H).
  - intros t Hin. apply in_app_or in Hin as [Hin | [<- | []]].
    + exact (seats_accounted s H t Hin).
    + simpl. destruct (active_of _ _) as [|b bs] eqn:E; [simpl; lia|].
      assert (In b (active_of (trains_seq (db s) + 1) (db s))) as Hb
        by (unfold active_of in *; simpl in *; rewrite E; now left).
      apply active_of_in in Hb as (Hb & Htr & Hst).
      destruct (seats_in_range s H b Hb Hst) as (t & Ht & Hid & _).
      pose proof (ids_issued s Hc t Ht). lia.
  - intros b Hb Hst.
    destruct (seats_in_range s H b Hb Hst) as (t & Ht & Hid & Hseat).
    exists t. split; [apply in_or_app; now left | now split].
Qed.

Lemma accounted_seat_taken s s' tid row nb :
  coherent s -> accounted s ->
  select_train tid (db s) = Some row ->
  0 < available_seats row ->
  pnr_taken (pnr nb) (db s) = false ->
  b_train_id nb = tid ->
  booking_status nb = confirmed ->
  seat_number nb = total_seats row - available_seats row + 1 ->
  db s' = add_available tid (-1) (with_bookings (db s) (bookings (db s) ++ [nb])) ->
  accounted s'.
Proof.
  intros Hc H Hrow Hav Hp Htr Hst Hseat Hdb.
  destruct (select_train_in _ _ _ Hrow) as [Hrin Hrid].
  split; rewrite Hdb.
  - simpl. apply pnrs_unique_after_insert; [exact (pnrs_unique s H)|].
    exact (pnr_taken_false _ _ Hp).
  - intros t' Hin. apply add_available_row in Hin as (t & Hin & Hid & Htot & Havl).
    simpl in Hin. rewrite Hid, Htot, Havl.
    change (active_of (t_id t) (add_available tid (-1)
              (with_bookings (db s) (bookings (db s) ++ [nb]))))
      with (active_of (t_id t) (with_bookings (db s) (bookings (db s) ++ [nb]))).
    rewrite active_of_insert, length_app.
    pose proof (seats_accounted s H t Hin) as Hacc.
    unfold is_active. rewrite Htr, Hst, (Z.eqb_sym tid).
    destruct (t_id t =? tid); simpl; lia.
  - intros b Hb Hbst. simpl in Hb. apply in_app_or in Hb as [Hb | [<- | []]].
    + destruct (seats_in_range s H b Hb Hbst) as (t & Ht & Hid & Hrange).
      destruct (in_add_available_row tid (-1)
                  (with_bookings (db s) (bookings (db s) ++ [nb])) t Ht)
        as (t' & Ht' & Hid' & Htot').
      exists t'. split; [exact Ht' | split; [congruence | lia]].
    + destruct (in_add_available_row tid (-1)
                  (with_bookings (db s) (bookings (db s) ++ [nb])) row Hrin)
        as (t' & Ht' & Hid' & Htot').
      exists t'. split; [exact Ht' | split; [congruence|]].
      pose proof (seats_accounted s H row Hrin). lia.
Qed.

Lemma accounted_seat_released s s' p b :
  accounted s ->
  select_booking p (db s) = Some b ->
  booking_status b = confirmed ->
  db s' = add_available (b_train_id b) 1 (cancel_status p (db s)) ->
  accounted s'.
Proof.
  intros H Hb Hst Hdb. split; rewrite Hdb.
  - change (bookings (add_available (b_train_id b) 1 (cancel_status p (db s))))
      with (bookings (cancel_status p (db s))).
    rewrite cancel_status_pnrs. exact (pnrs_unique s H).
  - intros t' Hin. apply add_available_row in Hin as (t & Hin & Hid & Htot & Havl).
    simpl in Hin. rewrite Hid, Htot, Havl.
    pose proof (seats_accounted s H t Hin) as Hacc.
    pose proof (active_after_cancel p (t_id t) (bookings (db s)) b
                  (pnrs_unique s H) Hb Hst) as Hcount.
    unfold active_of in *; simpl. rewrite (Z.eqb_sym (t_id t)).
    destruct (b_train_id b =? t_id t); lia.
  - intros b' Hb' Hst'. simpl in Hb'.
    apply confirmed_after_cancel in Hb'; [|exact Hst'].
    destruct (seats_in_range s H b' Hb' Hst') as (t & Ht & Hid & Hrange).
    destruct (in_add_available_row (b_train_id b) 1 (cancel_status p (db s)) t Ht)
      as (t' & Ht' & Hid' & Htot').
    exists t'. split; [exact Ht' | split; [congruence | lia]].
Qed.

Lemma accounted_promoted s s' tid p b nb :
  accounted s ->
  select_booking p (db s) = Some b ->
  booking_status b = confirmed ->
  pnr_taken (pnr nb) (db s) = false ->
  b_train_id nb = b_train_id b ->
  booking_status nb = confirmed ->
  seat_number nb = seat_number b ->
  db s' = shift_waiting tid
            (delete_first_waiting tid
               (with_bookings (cancel_status p (db s))
                  (bookings (cancel_status p (db s)) ++ [nb]))) ->
  accounted s'.
Proof.
  intros H Hb Hst Hp Htr Hnst Hseat Hdb.
  assert (In b (bookings (db s))) as Hbin
    by (unfold select_booking in Hb; now apply find_some in Hb).
  split; rewrite Hdb.
  - simpl bookings. apply pnrs_unique_after_insert.
    + change (NoDup (map pnr (bookings (cancel_status p (db s))))).
      rewrite cancel_status_pnrs. exact (pnrs_unique s H).
    + intros b0 Hb0 Heq. apply (in_map pnr) in Hb0.
      change (In (pnr b0) (map pnr (bookings (cancel_status p (db s))))) in Hb0.
      rewrite cancel_status_pnrs in Hb0.
      apply in_map_iff in Hb0 as (b1 & Hp1 & Hin1).
      apply (pnr_taken_false _ _ Hp b1 Hin1). congruence.
  - intros t Hin. simpl in Hin.
    pose proof (seats_accounted s H t Hin) as Hacc.
    pose proof (active_after_cancel p (t_id t) (bookings (db s)) b
                  (pnrs_unique s H) Hb Hst) as Hcount.
    unfold active_of in *; simpl. rewrite filter_app, length_app; simpl.
    unfold is_active at 2. rewrite Htr, Hnst.
    destruct (b_train_id b =? t_id t); simpl; lia.
  - intros b' Hb' Hst'. simpl in Hb'. apply in_app_or in Hb' as [Hb' | [<- | []]].
    + apply confirmed_after_cancel in Hb'; [|exact Hst'].
      exact (seats_in_range s H b' Hb' Hst').
    + destruct (seats_in_range s H b Hbin Hst) as (t & Ht & Hid & Hrange).
      exists t. split; [exact Ht | split; [congruence | lia]].
Qed.
End AccountingSteps.

Section AccountingInvariant.
Import Sql Server ServerRuns.

Lemma status_not_cancelled st : status_eqb st cancelled = false -> st = confirmed.
Proof. destruct st; [reflexivity | discriminate]. Qed.

Lemma accounted_step r s :
  coherent s -> accounted s -> draws_unused_pnr r s -> accounted (handle r s).
Proof.
  intros Hc H Hr. destruct r as [t u | bk u p | p u np]; simpl in *.
  - unfold create_train.
    destruct (negb (is_admin u)); [exact H|].
    destruct (insert_train _ _ _ _ (db s)) as [[new_id d]|] eqn:E; [|exact H].
    eapply accounted_create_train; [exact Hc | exact H | exact E | reflexivity].
  - unfold create_booking.
    destruct (LinkedList.search _ _ _) as [node|]; [|exact H].
    destruct (select_train (train_id bk) (db s)) as [row|] eqn:Erow; [|exact H].
    destruct (0 <? available_seats row) eqn:Eav.
    + apply Z.ltb_lt in Eav. rewrite insert_booking_unused by exact Hr.
      apply (accounted_seat_taken s _ (train_id bk) row
               {| pnr := p; b_user_id := user_id u; b_train_id := train_id bk;
                  b_passenger := bc_passenger bk;
                  seat_number := total_seats row - available_seats row + 1;
                  booking_status := confirmed |});
        [exact Hc | exact H | exact Erow | exact Eav | exact Hr
         | reflexivity | reflexivity | reflexivity | reflexivity].
    + eapply accounted_waiting; [exact H | reflexivity].
  - unfold cancel_booking.
    destruct (select_booking p (db s)) as [b|] eqn:Eb; [|exact H].
    destruct (negb _ && negb _); [exact H|].
    destruct (status_eqb _ _) eqn:Est; [exact H|].
    apply status_not_cancelled in Est.
    assert (accounted (release_seat (b_train_id b) (cancel_status p (db s))
                         (delete p (passenger_cache s)) s)) as Hrelease
      by (eapply (accounted_seat_released s _ p b);
          [exact H | exact Eb | exact Est | reflexivity]).
    destruct (waiting_queues s !! b_train_id b) as [[|first rest]|]; try exact Hrelease.
    simpl. rewrite insert_booking_unused
      by (simpl; now rewrite pnr_taken_cancel_status).
    apply (accounted_promoted s _ (b_train_id b) p b
             {| pnr := np; b_user_id := wd_user_id first; b_train_id := b_train_id b;
                b_passenger := wd_passenger first; seat_number := seat_number b;
                booking_status := confirmed |});
      [exact H | exact Eb | exact Est | exact Hr
       | reflexivity | reflexivity | reflexivity | reflexivity].
Qed.

Lemma reachable_accounted s : reachable s -> accounted s.
Proof.
  induction 1 as [|s r Hs IH Hr].
  - exact accounted_initial.
  - apply accounted_step; [now apply reachable_coherent | exact IH | exact Hr].
Qed.

(** In a reachable state the seats of a train that are not available are
    the ones confirmed bookings hold, so that at most [total_seats] are
    available, and the seat of every confirmed booking is a seat number of
    its train. *)
Lemma reachable_seat_numbers_in_range s :
  reachable s ->
  (forall t, In t (trains (db s)) ->
     available_seats t
     = total_seats t - Z.of_nat (length (active_of (t_id t) (db s)))
     /\ available_seats t <= total_seats t)
  /\ (forall t b, In t (trains (db s)) -> In b (active_of (t_id t) (db s)) ->
        1 <= seat_number b <= total_seats t).
Proof.
  intros Hs. pose proof (reachable_accounted s Hs) as H.
  pose proof (reachable_coherent s Hs) as Hc.
  split.
  - intros t Hin. pose proof (seats_accounted s H t Hin) as Hacc. lia.
  - intros t b Hin Hb. apply active_of_in in Hb as (Hb & Htr & Hst).
    destruct (seats_in_range s H b Hb Hst) as (t' & Ht' & Hid & Hrange).
    assert (t' = t) as ->
      by (apply (same_id_same_row (trains (db s)));
          [exact (ids_unique s Hc) | assumption | assumption | congruence]).
    exact Hrange.
Qed.
End AccountingInvariant.

(** * Further properties of the code *)

(** ** data_structures.py *)

(** X1.  [LinkedList.search] returns the first node, from the head, that
    [compare_func] accepts, and [None] exactly when it accepts no node. *)
Theorem search_returns_first_match {A K : Type} (l : list A) (key : K)
    (compare_func : A -> K -> bool) :
  match LinkedList.search l key compare_func with
  | Some x =>
      exists before after,
        l = before ++ x :: after
        /\ compare_func x key = true
        /\ forall y, In y before -> compare_func y key = false
  | None => forall y, In y l -> compare_func y key = false
  end.
Proof.
  induction l as [|d next IH]; simpl.
  - intros y [].
  - destruct (compare_func d key) eqn:E.
    + exists [], next. repeat split; [exact E | intros y []].
    + destruct (LinkedList.search next key compare_func) as [x|].
      * destruct IH as (before & after & -> & Hx & Hbefore).
        exists (d :: before), after. repeat split; [exact Hx|].
        intros y [<- | Hy]; [exact E | now apply Hbefore].
      * intros y [<- | Hy]; [exact E | now apply IH].
Qed.

(** X2.  [LinkedList.delete_by_value] unlinks the node [search] would
    return, and only that one, and answers [True]; when no node matches it
    answers [False] and the list is as before. *)
Theorem delete_by_value_unlinks_first_match {A K : Type} (l : list A) (key : K)
    (compare_func : A -> K -> bool) :
  match LinkedList.search l key compare_func with
  | Some x =>
      exists before after,
        l = before ++ x :: after
        /\ (forall y, In y before -> compare_func y key = false)
        /\ LinkedList.delete_by_value l key compare_func = (before ++ after, true)
  | None => LinkedList.delete_by_value l key compare_func = (l, false)
  end.
Proof.
  induction l as [|d next IH]; simpl; [reflexivity|].
  destruct (compare_func d key) eqn:E.
  - exists [], next. repeat split. intros y [].
  - destruct (LinkedList.search next key compare_func) as [x|].
    + destruct IH as (before & after & -> & Hbefore & ->).
      exists (d :: before), after. repeat split.
      intros y [<- | Hy]; [exact E | now apply Hbefore].
    + now rewrite IH.
Qed.

(** X3.  [LinkedList.update] replaces the data of the node [search] would
    return, and of no other node, and answers [True]; when no node matches
    it answers [False] and the list is as before.  The list keeps its
    length either way. *)
Theorem update_replaces_first_match {A K : Type} (l : list A) (key : K) (new_data : A)
    (compare_func : A -> K -> bool) :
  match LinkedList.search l key compare_func with
  | Some x =>
      exists before after,
        l = before ++ x :: after
        /\ (forall y, In y before -> compare_func y key = false)
        /\ LinkedList.update l key new_data compare_func
           = (before ++ new_data :: after, true)
  | None => LinkedList.update l key new_data compare_func = (l, false)
  end
  /\ length (fst (LinkedList.update l key new_data compare_func)) = length l.
Proof.
  induction l as [|d next IH]; simpl; [split; reflexivity|].
  destruct (compare_func d key) eqn:E.
  - split; [|reflexivity]. exists [], next. repeat split. intros y [].
  - destruct IH as [IH Hlen].
    destruct (LinkedList.update next key new_data compare_func) as [next' found] eqn:Eu.
    simpl in *. split; [|now rewrite Hlen].
    destruct (LinkedList.search next key compare_func) as [x|].
    + destruct IH as (before & after & -> & Hbefore & [= -> ->]).
      exists (d :: before), after. repeat split.
      intros y [<- | Hy]; [exact E | now apply Hbefore].
    + now injection IH as -> ->.
Qed.

(** X4.  A node appended with [insert_at_end] never hides an older one:
    [search] still returns the node it returned before, and returns the new
    node only when no older node matches and the new one does. *)
Theorem insert_at_end_keeps_older_matches {A K : Type} (l : list A) (data : A) (key : K)
    (compare_func : A -> K -> bool) :
  LinkedList.search (LinkedList.insert_at_end l data) key compare_func
  = match LinkedList.search l key compare_func with
    | Some x => Some x
    | None => if compare_func data key then Some data else None
    end.
Proof.
  unfold LinkedList.insert_at_end.
  induction l as [|d next IH]; simpl; [reflexivity|].
  destruct (compare_func d key); [reflexivity | exact IH].
Qed.

(** ** The queue is first in, first out *)

Section QueueOrder.
Context {A : Type}.

Lemma enqueue_all_app (items xs : list A) :
  QueueRuns.enqueue_all items xs = items ++ xs.
Proof.
  revert items. induction xs as [|x xs IH]; intros items; simpl.
  - now rewrite app_nil_r.
  - rewrite IH. unfold Queue.enqueue. now rewrite <- app_assoc.
Qed.

Lemma dequeue_times_empty (k : nat) :
  QueueRuns.dequeue_times k (@nil A) = (repeat None k, []).
Proof.
  induction k as [|k IH]; simpl; [reflexivity|]. now rewrite IH.
Qed.

Lemma dequeue_times_items (xs : list A) (k : nat) :
  QueueRuns.dequeue_times (length xs + k) xs = (map Some xs ++ repeat None k, []).
Proof.
  induction xs as [|x xs IH]; simpl.
  - apply dequeue_times_empty.
  - now rewrite IH.
Qed.
End QueueOrder.

(** X5.  Items enqueued one after the other on an empty queue are handed
    out by [dequeue] in the order they were enqueued; once they are all out
    the queue is empty and every further [dequeue] returns [None]. *)
Theorem queue_is_first_in_first_out {A : Type} (xs : list A) (k : nat) :
  QueueRuns.dequeue_times (length xs + k) (QueueRuns.enqueue_all [] xs)
  = (map Some xs ++ repeat None k, []).
Proof.
  rewrite enqueue_all_app. simpl. apply dequeue_times_items.
Qed.

(** X6.  [peek] shows the item the next [dequeue] returns and leaves the
    queue alone; [dequeue] shortens the queue by one item, except on an
    empty queue, where both return [None], [is_empty] holds and [size] is
    0. *)
Theorem peek_shows_what_dequeue_returns {A : Type} (items : list A) :
  Queue.peek items = fst (Queue.dequeue items)
  /\ (Queue.is_empty items = true <-> Queue.size items = 0)
  /\ (Queue.is_empty items = true <-> Queue.dequeue items = (None, items))
  /\ (Queue.is_empty items = false ->
      Queue.size (snd (Queue.dequeue items)) = Queue.size items - 1
      /\ exists x, Queue.dequeue items = (Some x, snd (Queue.dequeue items))
                   /\ items = x :: snd (Queue.dequeue items)).
Proof.
  destruct items as [|x rest]; simpl.
  - repeat split; try reflexivity; discriminate.
  - unfold Queue.size. simpl length. repeat split; try discriminate; try lia.
    exists x. now split.
Qed.

(** ** Invariants of the server's runs *)

(** X7.  In every state the server reaches by creating trains, reserving
    and releasing, [available_seats] of a train is its [total_seats] minus
    the number of its confirmed bookings, so it never exceeds [total_seats],
    and every confirmed booking sits on a seat between 1 and [total_seats]
    of its train. *)
Theorem reachable_seats_are_accounted (s : Server.state) (t : train)
    (Hreach : ServerRuns.reachable s)
    (Htrain : In t (trains (Server.db s))) :
  available_seats t
  = total_seats t - Z.of_nat (length (Sql.active_of (t_id t) (Server.db s)))
  /\ available_seats t <= total_seats t
  /\ forall b, In b (Sql.active_of (t_id t) (Server.db s)) ->
               1 <= seat_number b <= total_seats t.
Proof.
  destruct (reachable_seat_numbers_in_range s Hreach) as [Hcount Hrange].
  destruct (Hcount t Htrain) as [Heq Hle].
  split; [exact Heq | split; [exact Hle|]].
  intros b Hb. exact (Hrange t b Htrain Hb).
Qed.

Lemma reachable_seats_are_accounted_witness :
  available_seats
    {| t_id := 1; train_number := "12001"; train_name := "Express";
       total_seats := 2; available_seats := 0 |}
  = 2 - Z.of_nat (length (Sql.active_of 1 (Server.db Scenario.resold))).
Proof.
  apply (reachable_seats_are_accounted Scenario.resold
           {| t_id := 1; train_number := "12001"; train_name := "Express";
              total_seats := 2; available_seats := 0 |}).
  - do 3 (apply run_reachable; [|repeat split]). constructor.
  - simpl. now left.
Defined.





(** ** The linked list follows the table *)

Section ListFollowsTable.
Import Sql Server ServerRuns.

Lemma search_by_id_is_select (l : list train) tid :
  LinkedList.search l tid by_id = List.find (fun t => t_id t =? tid) l.
Proof.
  induction l as [|x xs IH]; simpl; [reflexivity|].
  unfold by_id at 1. now rewrite IH.
Qed.





End ListFollowsTable.



(** ** Bookings are history *)

Section History.
Import Sql Server.

Lemma kept_refl (l : list booking) : Forall2 kept_or_cancelled l l.
Proof. induction l; constructor; [now left | assumption]. Qed.

Lemma history_kept_refl (l : list booking) : history_kept l l.
Proof. exists l, []. split; [now rewrite app_nil_r | apply kept_refl]. Qed.

Lemma kept_cancel_status p (l : list booking) :
  Forall2 kept_or_cancelled l
    (map (fun b => if String.eqb (pnr b) p then set_status b cancelled else b) l).
Proof.
  induction l as [|b bs IH]; simpl; constructor; [|exact IH].
  destruct (String.eqb (pnr b) p); [now right | now left].
Qed.

Lemma history_kept_create_booking bk u p s :
  history_kept (bookings (db s)) (bookings (db (snd (create_booking bk u p s)))).
Proof.
  unfold create_booking.
  destruct (LinkedList.search _ _ _); [|apply history_kept_refl].
  destruct (select_train _ _) as [row|]; [|apply history_kept_refl].
  destruct (0 <? available_seats row); [|apply history_kept_refl].
  unfold insert_booking. destruct (pnr_taken _ _); [apply history_kept_refl|].
  simpl. eexists _, _. split; [reflexivity | apply kept_refl].
Qed.

Lemma history_kept_cancel_booking p u np s :
  history_kept (bookings (db s)) (bookings (db (snd (cancel_booking p u np s)))).
Proof.
  unfold cancel_booking.
  destruct (select_booking p (db s)) as [b|]; [|apply history_kept_refl].
  destruct (negb _ && negb _); [apply history_kept_refl|].
  destruct (status_eqb _ _); [apply history_kept_refl|].
  assert (history_kept (bookings (db s))
            (bookings (db (release_seat (b_train_id b) (cancel_status p (db s))
                             (delete p (passenger_cache s)) s)))) as Hrelease.
  { simpl. eexists _, []. split; [now rewrite app_nil_r | apply kept_cancel_status]. }
  destruct (waiting_queues s !! b_train_id b) as [[|first rest]|];
    try exact Hrelease.
  simpl. unfold insert_booking. destruct (pnr_taken _ _); simpl.
  - apply history_kept_refl.
  - eexists _, _. split; [reflexivity | apply kept_cancel_status].
Qed.
End History.

(** X11.  No handler of the server deletes or rewrites a booking.  After
    [create_train], [update_train], [delete_train], [create_booking] or
    [cancel_booking] the [bookings] table holds the rows it held before, in
    the same order, each one untouched or with only its status changed to
    [cancelled], followed by the rows the call added; a cancelled booking is
    never confirmed again. *)
Theorem bookings_are_never_deleted
    (s : Server.state) (u : Server.token) (tid : Z)
    (t : Server.TrainCreate) (upd : Server.TrainUpdate)
    (bk : Server.BookingCreate) (p np : string) :
  history_kept (bookings (Server.db s))
               (bookings (Server.db (snd (Server.create_train t u s))))
  /\ history_kept (bookings (Server.db s))
                  (bookings (Server.db (snd (Server.update_train tid upd u s))))
  /\ history_kept (bookings (Server.db s))
                  (bookings (Server.db (snd (ServerReads.delete_train tid u s))))
  /\ history_kept (bookings (Server.db s))
                  (bookings (Server.db (snd (Server.create_booking bk u p s))))
  /\ history_kept (bookings (Server.db s))
                  (bookings (Server.db (snd (Server.cancel_booking p u np s))))
  /\ (forall b b', kept_or_cancelled b b' ->
                   booking_status b = cancelled -> b' = b).
Proof.
  repeat split.
  - unfold Server.create_train.
    destruct (negb _); [apply history_kept_refl|].
    unfold Sql.insert_train. destruct (Sql.train_number_taken _ _);
      apply history_kept_refl.
  - unfold Server.update_train.
    destruct (negb _); [apply history_kept_refl|].
    destruct (Sql.select_train _ _); [|apply history_kept_refl].
    destruct (match Server.tu_train_name upd with
              | Some n => if String.eqb n "" then None else Some n
              | None => None
              end);
      destruct (match Server.tu_total_seats upd with
                | Some n => if n =? 0 then None else Some (n, n - total_seats t0)
                | None => None
                end); apply history_kept_refl.
  - unfold ServerReads.delete_train.
    destruct (negb (Server.is_admin u)); [apply history_kept_refl|].
    destruct (negb (existsb _ _)); apply history_kept_refl.
  - apply history_kept_create_booking.
  - apply history_kept_cancel_booking.
  - intros b b' [-> | ->] Hst; [reflexivity|].
    destruct b; simpl in *. now subst.
Qed.

(** ** Cancelling twice *)

Section CancelTwice.
Import Sql Server.

Lemma find_after_cancel p (l extra : list booking) b :
  List.find (fun b => String.eqb (pnr b) p) l = Some b ->
  List.find (fun b => String.eqb (pnr b) p)
    (map (fun b => if String.eqb (pnr b) p then set_status b cancelled else b) l ++ extra)
  = Some (set_status b cancelled).
Proof.
  induction l as [|x xs IH]; simpl; [discriminate|].
  destruct (String.eqb (pnr x) p) eqn:E; simpl.
  - intros [= ->]. now rewrite E.
  - rewrite E. exact IH.
Qed.

Lemma cancel_booking_already_cancelled p u np s b :
  select_booking p (db s) = Some b ->
  may_cancel u b ->
  booking_status b = cancelled ->
  cancel_booking p u np s = (HTTPException 400 "Booking already cancelled", s).
Proof.
  intros Hb Hu Hst. unfold cancel_booking.
  now rewrite Hb, (may_cancel_check _ _ Hu), Hst.
Qed.

Lemma select_after_cancel_booking p u np s b r s' :
  select_booking p (db s) = Some b ->
  cancel_booking p u np s = (Ok r, s') ->
  select_booking p (db s') = Some (set_status b cancelled).
Proof.
  intros Hb. unfold cancel_booking. rewrite Hb.
  destruct (negb _ && negb _); [discriminate|].
  destruct (status_eqb _ _); [discriminate|].
  assert (select_booking p
            (db (release_seat (b_train_id b) (cancel_status p (db s))
                   (delete p (passenger_cache s)) s))
          = Some (set_status b cancelled)) as Hrelease.
  { unfold select_booking, release_seat; simpl.
    rewrite <- (app_nil_r (map _ _)). now apply find_after_cancel. }
  destruct (waiting_queues s !! b_train_id b) as [[|first rest]|].
  - intros [= _ <-]. exact Hrelease.
  - simpl. unfold insert_booking. destruct (pnr_taken _ _); [discriminate|].
    intros [= _ <-]. unfold select_booking; simpl. now apply find_after_cancel.
  - intros [= _ <-]. exact Hrelease.
Qed.
End CancelTwice.

(** X12.  A booking is cancelled once.  After a [cancel_booking] that
    succeeded, a second call for the same PNR, by the owner or by an
    administrator, is answered 400 "Booking already cancelled" and changes
    nothing: no second seat is released and nobody else is promoted. *)
Theorem booking_is_cancelled_only_once
    (p np np' : string) (u u' : Server.token) (s s' : Server.state)
    (b : booking) (r : cancel_response)
    (Hfound : Sql.select_booking p (Server.db s) = Some b)
    (Hfirst : Server.cancel_booking p u np s = (Ok r, s'))
    (Hmay : may_cancel u' b) :
  Server.cancel_booking p u' np' s'
  = (HTTPException 400 "Booking already cancelled", s').
Proof.
  apply (cancel_booking_already_cancelled p u' np' s' (Sql.set_status b cancelled)).
  - exact (select_after_cancel_booking p u np s b r s' Hfound Hfirst).
  - exact Hmay.
  - reflexivity.
Qed.

Lemma booking_is_cancelled_only_once_witness :
  Server.cancel_booking "PNRAAAAAA1" Scenario.admin "PNRYYYYYY9"
    Scenario.two_sold_one_released
  = (HTTPException 400 "Booking already cancelled", Scenario.two_sold_one_released).
Proof.
  apply (booking_is_cancelled_only_once "PNRAAAAAA1" "PNRXXXXXX0" "PNRYYYYYY9"
           Scenario.alice Scenario.admin Scenario.two_sold
           Scenario.two_sold_one_released
           {| pnr := "PNRAAAAAA1"; b_user_id := 2; b_train_id := 1;
              b_passenger := Scenario.traveller "Asha"; seat_number := 1;
              booking_status := confirmed |} Cancelled).
  - reflexivity.
  - reflexivity.
  - right. reflexivity.
Defined.

(** ** Edges of [update_train] *)

(** X13.  [update_train] treats a [total_seats] of 0 and an empty
    [train_name] like missing fields.  An administrator's update of an
    existing train that carries nothing else is answered "No updates
    provided" and the state is as before: the seats of a train cannot be set
    to zero through this route. *)
Theorem update_train_ignores_zero_and_empty
    (tid : Z) (upd : Server.TrainUpdate) (u : Server.token) (s : Server.state) (t : train)
    (Hadmin : Server.role u = "admin"%string)
    (Htrain : Sql.select_train tid (Server.db s) = Some t)
    (Hname : Server.tu_train_name upd = None
             \/ Server.tu_train_name upd = Some ""%string)
    (Hseats : Server.tu_total_seats upd = None \/ Server.tu_total_seats upd = Some 0) :
  Server.update_train tid upd u s = (Ok NoUpdatesProvided, s).
Proof.
  unfold Server.update_train. rewrite (is_admin_true _ Hadmin), Htrain; simpl.
  destruct Hname as [-> | ->]; destruct Hseats as [-> | ->]; reflexivity.
Qed.

Lemma update_train_ignores_zero_and_empty_witness :
  Server.update_train 1
    {| Server.tu_train_name := Some ""%string; Server.tu_total_seats := Some 0 |}
    Scenario.admin Scenario.two_sold
  = (Ok NoUpdatesProvided, Scenario.two_sold).
Proof.
  apply (update_train_ignores_zero_and_empty 1 _ Scenario.admin Scenario.two_sold
           {| t_id := 1; train_number := "12001"; train_name := "Express";
              total_seats := 2; available_seats := 0 |}).
  - reflexivity.
  - reflexivity.
  - right. reflexivity.
  - right. reflexivity.
Defined.

Section CapacityIncrease.
Import Sql Server.

(** What [update_train] does to the tables when it changes [total_seats]. *)
Lemma update_train_seats tid upd u s t n :
  role u = "admin"%string ->
  select_train tid (db s) = Some t ->
  tu_total_seats upd = Some n ->
  n <> 0 ->
  exists s' t',
    update_train tid upd u s = (Ok TrainUpdated, s')
    /\ select_train tid (db s') = Some t'
    /\ total_seats t' = n
    /\ available_seats t' = available_seats t + (n - total_seats t)
    /\ bookings (db s') = bookings (db s)
    /\ waiting_list (db s') = waiting_list (db s)
    /\ trains_linked_list s' = trains_linked_list s
    /\ waiting_queues s' = waiting_queues s.
Proof.
  intros Hadmin Htrain Hseats Hnz. unfold update_train.
  rewrite (is_admin_true _ Hadmin), Htrain, Hseats; simpl.
  apply Z.eqb_neq in Hnz. rewrite Hnz.
  destruct (match tu_train_name upd with
            | Some n => if String.eqb n "" then None else Some n
            | None => None
            end) as [name|];
    (eexists; eexists; split; [reflexivity|]; cbn [db];
     split; [apply select_train_rewritten; [reflexivity | exact Htrain] |];
     repeat split).
Qed.
End CapacityIncrease.

(** X14.  [update_train] promotes nobody.  When an administrator raises
    [total_seats] of a train that has passengers on its waiting list so that
    seats become available, the waiting list stays as it is, and the next
    [create_booking] for that train is confirmed at once, ahead of everybody
    who waits. *)
Theorem capacity_increase_serves_newcomer_before_waiting_list
    (tid new_total : Z) (upd : Server.TrainUpdate) (admin u : Server.token)
    (s : Server.state) (t node : train) (bk : Server.BookingCreate) (p : string)
    (w : waiting) (ws : list waiting)
    (Hadmin : Server.role admin = "admin"%string)
    (Htrain : Sql.select_train tid (Server.db s) = Some t)
    (Hnode : LinkedList.search (Server.trains_linked_list s) tid Server.by_id = Some node)
    (Hwaiting : Sql.waiting_of tid (Server.db s) = w :: ws)
    (Hseats : Server.tu_total_seats upd = Some new_total)
    (Hnonzero : new_total <> 0)
    (Hgain : 0 < available_seats t + (new_total - total_seats t))
    (Hbk : Server.train_id bk = tid)
    (Hunused : Sql.pnr_taken p (Server.db s) = false) :
  exists s1 s2,
    Server.update_train tid upd admin s = (Ok TrainUpdated, s1)
    /\ Sql.waiting_of tid (Server.db s1) = w :: ws
    /\ Server.create_booking bk u p s1
       = (Ok (Confirmed p (total_seats t - available_seats t + 1)), s2)
    /\ Sql.waiting_of tid (Server.db s2) = w :: ws
    /\ Server.queue_of tid s2 = Server.queue_of tid s.
Proof.
  destruct (update_train_seats tid upd admin s t new_total Hadmin Htrain Hseats Hnonzero)
    as (s1 & t1 & Hupd & Ht1 & Htot & Hav & Hbs & Hws & Hll & Hqs).
  subst tid.
  assert (Server.create_booking bk u p s1
          = (Ok (Confirmed p (total_seats t1 - available_seats t1 + 1)),
             snd (Server.create_booking bk u p s1))) as Hbook.
  { rewrite (create_booking_confirmed bk u p s1 node t1); try assumption.
    - reflexivity.
    - now rewrite Hll.
    - lia.
    - unfold Sql.pnr_taken. rewrite Hbs. exact Hunused. }
  exists s1, (snd (Server.create_booking bk u p s1)).
  assert (Sql.waiting_of (Server.train_id bk) (Server.db s1) = w :: ws) as Hw1
    by (unfold Sql.waiting_of; rewrite Hws; exact Hwaiting).
  split; [exact Hupd|]. split; [exact Hw1|]. split.
  - replace (total_seats t - available_seats t + 1)
      with (total_seats t1 - available_seats t1 + 1) by lia.
    exact Hbook.
  - rewrite (create_booking_confirmed bk u p s1 node t1); try assumption.
    + simpl. split; [exact Hw1|]. unfold Server.queue_of. simpl. now rewrite Hqs.
    + now rewrite Hll.
    + lia.
    + unfold Sql.pnr_taken. rewrite Hbs. exact Hunused.
Qed.

Lemma capacity_increase_serves_newcomer_before_waiting_list_witness :
  exists s1 s2,
    Server.update_train 1
      {| Server.tu_train_name := None; Server.tu_total_seats := Some 2 |}
      Scenario.admin Scenario.one_sold_one_waiting = (Ok TrainUpdated, s1)
    /\ Server.create_booking (Scenario.seat_on 1 "Chitra") Scenario.carol "PNRCCCCCC3" s1
       = (Ok (Confirmed "PNRCCCCCC3" 2), s2)
    /\ map w_user_id (Sql.waiting_of 1 (Server.db s2)) = [3].
Proof.
  destruct (capacity_increase_serves_newcomer_before_waiting_list 1 2
              {| Server.tu_train_name := None; Server.tu_total_seats := Some 2 |}
              Scenario.admin Scenario.carol Scenario.one_sold_one_waiting
              {| t_id := 1; train_number := "12001"; train_name := "Express";
                 total_seats := 1; available_seats := 0 |}
              {| t_id := 1; train_number := "12001"; train_name := "Express";
                 total_seats := 1; available_seats := 0 |}
              (Scenario.seat_on 1 "Chitra") "PNRCCCCCC3"
              {| w_train_id := 1; w_user_id := 3;
                 w_passenger := Scenario.traveller "Bina"; position := 1 |} [])
    as (s1 & s2 & Hupd & _ & Hbook & Hw & _).
  - reflexivity.
  - reflexivity.
  - reflexivity.
  - reflexivity.
  - reflexivity.
  - lia.
  - simpl. lia.
  - reflexivity.
  - reflexivity.
  - exists s1, s2. split; [exact Hupd|]. split; [exact Hbook|]. now rewrite Hw.
Defined.

(** ** Deleting a train *)

Section DeleteTrain.
Import Sql Server ServerReads.

Lemma select_train_exists tid d t :
  select_train tid d = Some t -> existsb (fun t => t_id t =? tid) (trains d) = true.
Proof.
  unfold select_train. intros H. apply find_some in H as [Hin Hid].
  apply existsb_exists. now exists t.
Qed.

Lemma find_after_delete_same (l : list train) tid :
  List.find (fun t => t_id t =? tid)
            (List.filter (fun t => negb (t_id t =? tid)) l) = None.
Proof.
  induction l as [|x xs IH]; simpl; [reflexivity|].
  destruct (t_id x =? tid) eqn:E; simpl; [exact IH | now rewrite E].
Qed.

Lemma find_after_delete_other (l : list train) tid x :
  x <> tid ->
  List.find (fun t => t_id t =? x)
            (List.filter (fun t => negb (t_id t =? tid)) l)
  = List.find (fun t => t_id t =? x) l.
Proof.
  intros Hne. induction l as [|y ys IH]; simpl; [reflexivity|].
  destruct (t_id y =? tid) eqn:E; simpl.
  - apply Z.eqb_eq in E.
    assert ((t_id y =? x) = false) as -> by (apply Z.eqb_neq; congruence).
    exact IH.
  - destruct (t_id y =? x); [reflexivity | exact IH].
Qed.

Lemma exists_after_delete (l : list train) tid :
  existsb (fun t => t_id t =? tid)
          (List.filter (fun t => negb (t_id t =? tid)) l) = false.
Proof.
  induction l as [|x xs IH]; simpl; [reflexivity|].
  destruct (t_id x =? tid) eqn:E; simpl; [exact IH | now rewrite E].
Qed.

(** On a list without two nodes of the same id nothing with that id is
    left once [delete_by_value] has run. *)
Lemma search_after_delete_by_value (l : list train) tid :
  NoDup (map t_id l) ->
  LinkedList.search (fst (LinkedList.delete_by_value l tid by_id)) tid by_id = None.
Proof.
  induction l as [|x xs IH]; simpl; [reflexivity|].
  intros Hnd. inversion Hnd as [|? ? Hnotin Hnd']; subst.
  change (by_id x tid) with (t_id x =? tid).
  destruct (t_id x =? tid) eqn:E; simpl.
  - apply Z.eqb_eq in E. rewrite search_by_id_is_select.
    destruct (List.find _ xs) as [y|] eqn:Ef; [|reflexivity].
    apply find_some in Ef as [Hin Hy]. apply Z.eqb_eq in Hy.
    exfalso. apply Hnotin. rewrite E, <- Hy. now apply in_map.
  - specialize (IH Hnd').
    destruct (LinkedList.delete_by_value xs tid by_id) as [xs' found]; simpl in *.
    change (by_id x tid) with (t_id x =? tid). now rewrite E.
Qed.

Lemma delete_train_succeeds tid u s t :
  role u = "admin"%string ->
  select_train tid (db s) = Some t ->
  delete_train tid u s
  = (Ok tt,
     {| db := with_trains (db s)
                (List.filter (fun t => negb (t_id t =? tid)) (trains (db s)));
        trains_linked_list :=
          fst (LinkedList.delete_by_value (trains_linked_list s) tid by_id);
        waiting_queues := delete tid (waiting_queues s);
        passenger_cache := passenger_cache s |}).
Proof.
  intros Hadmin Ht. unfold delete_train.
  now rewrite (is_admin_true _ Hadmin), (select_train_exists _ _ _ Ht).
Qed.

Lemma find_conjunction {A} (f g : A -> bool) (l : list A) x :
  List.find f l = Some x -> g x = true ->
  List.find (fun y => f y && g y) l = Some x.
Proof.
  induction l as [|y ys IH]; simpl; [discriminate|].
  destruct (f y) eqn:E; simpl.
  - intros [= ->] Hg. now rewrite Hg.
  - exact IH.
Qed.

Lemma same_pnr_same_row (l : list booking) a b :
  NoDup (map pnr l) -> In a l -> In b l -> pnr a = pnr b -> a = b.
Proof.
  induction l as [|x xs IH]; simpl; [contradiction|].
  intros Hnd [-> | Ha] [-> | Hb] Heq; inversion Hnd as [|? ? Hnotin Hnd']; subst.
  - reflexivity.
  - exfalso. apply Hnotin. rewrite Heq. now apply in_map.
  - exfalso. apply Hnotin. rewrite <- Heq. now apply in_map.
  - now apply IH.
Qed.
End DeleteTrain.

(** X15.  [delete_train] by an administrator removes the row of the train,
    its node in the linked list (when no two nodes share the id) and its
    queue, and nothing else: the bookings and the waiting-list rows of the
    train stay in their tables, and the other trains keep their rows.  A
    reservation for the deleted train is then refused with 404. *)
Theorem delete_train_keeps_bookings_and_waiting_rows
    (tid : Z) (u cu : Server.token) (s : Server.state) (t : train)
    (bk : Server.BookingCreate) (p : string)
    (Hadmin : Server.role u = "admin"%string)
    (Htrain : Sql.select_train tid (Server.db s) = Some t)
    (Hlist : NoDup (map t_id (Server.trains_linked_list s)))
    (Hbk : Server.train_id bk = tid) :
  exists s',
    ServerReads.delete_train tid u s = (Ok tt, s')
    /\ Sql.select_train tid (Server.db s') = None
    /\ (forall x, x <> tid ->
          Sql.select_train x (Server.db s') = Sql.select_train x (Server.db s))
    /\ LinkedList.search (Server.trains_linked_list s') tid Server.by_id = None
    /\ Server.waiting_queues s' !! tid = None
    /\ bookings (Server.db s') = bookings (Server.db s)
    /\ waiting_list (Server.db s') = waiting_list (Server.db s)
    /\ Server.create_booking bk cu p s'
       = (HTTPException 404 "Train not found in LinkedList", s').
Proof.
  eexists. split; [now apply (delete_train_succeeds tid u s t)|].
  assert (LinkedList.search
            (fst (LinkedList.delete_by_value (Server.trains_linked_list s) tid
                    Server.by_id)) tid Server.by_id = None) as Hgone
    by now apply search_after_delete_by_value.
  cbn [Server.db Server.trains_linked_list Server.waiting_queues].
  repeat split.
  - apply find_after_delete_same.
  - intros x Hx. now apply find_after_delete_other.
  - exact Hgone.
  - apply lookup_delete_eq.
  - unfold Server.create_booking. cbn [Server.trains_linked_list].
    now rewrite Hbk, Hgone.
Qed.

Lemma delete_train_keeps_bookings_and_waiting_rows_witness :
  exists s',
    ServerReads.delete_train 1 Scenario.admin Scenario.one_sold_one_waiting = (Ok tt, s')
    /\ Sql.select_train 1 (Server.db s') = None
    /\ length (bookings (Server.db s')) = 1%nat
    /\ length (waiting_list (Server.db s')) = 1%nat.
Proof.
  destruct (delete_train_keeps_bookings_and_waiting_rows 1 Scenario.admin Scenario.carol
              Scenario.one_sold_one_waiting
              {| t_id := 1; train_number := "12001"; train_name := "Express";
                 total_seats := 1; available_seats := 0 |}
              (Scenario.seat_on 1 "Chitra") "PNRCCCCCC3")
    as (s' & Hdel & Hrow & _ & _ & _ & Hbs & Hws & _).
  - reflexivity.
  - reflexivity.
  - simpl. repeat constructor. intros [].
  - reflexivity.
  - exists s'. split; [exact Hdel|]. split; [exact Hrow|].
    rewrite Hbs, Hws. split; reflexivity.
Defined.

(** X16.  [GET /bookings/pnr/{pnr}] joins the booking with its train.  As
    long as the train has its row the booking is returned with it; once the
    train is deleted the booking, although still in [bookings], is answered
    404 "Booking not found". *)
Theorem deleted_train_hides_its_bookings_from_pnr_lookup
    (p : string) (u : Server.token) (s : Server.state) (b : booking) (t : train)
    (Hadmin : Server.role u = "admin"%string)
    (Hpnrs : NoDup (map pnr (bookings (Server.db s))))
    (Hfound : Sql.select_booking p (Server.db s) = Some b)
    (Htrain : Sql.select_train (b_train_id b) (Server.db s) = Some t) :
  ServerReads.get_booking_by_pnr p s = Ok (b, t)
  /\ exists s',
       ServerReads.delete_train (b_train_id b) u s = (Ok tt, s')
       /\ In b (bookings (Server.db s'))
       /\ ServerReads.get_booking_by_pnr p s' = HTTPException 404 "Booking not found".
Proof.
  assert (In b (bookings (Server.db s)) /\ pnr b = p) as [Hin Hp].
  { unfold Sql.select_booking in Hfound. apply find_some in Hfound as [Hin Hp].
    split; [exact Hin | now apply String.eqb_eq]. }
  split.
  - unfold ServerReads.get_booking_by_pnr.
    rewrite (find_conjunction (fun b => String.eqb (pnr b) p)
               (fun b => existsb (fun t => t_id t =? b_train_id b)
                                 (trains (Server.db s)))
               (bookings (Server.db s)) b Hfound
               (select_train_exists _ _ _ Htrain)).
    now rewrite Htrain.
  - eexists. split; [now apply (delete_train_succeeds (b_train_id b) u s t)|].
    cbn [Server.db]. split; [exact Hin|].
    unfold ServerReads.get_booking_by_pnr. cbn [Server.db].
    destruct (List.find _ _) as [b'|] eqn:Ef; [|reflexivity].
    apply find_some in Ef as [Hin' Hb']. simpl in Hin'.
    apply andb_true_iff in Hb' as [Hp' Hex]. apply String.eqb_eq in Hp'.
    assert (b' = b) as -> by (apply (same_pnr_same_row _ _ _ Hpnrs Hin' Hin); congruence).
    simpl in Hex. rewrite exists_after_delete in Hex. discriminate.
Qed.

Lemma deleted_train_hides_its_bookings_from_pnr_lookup_witness :
  exists t, ServerReads.get_booking_by_pnr "PNRAAAAAA1" Scenario.one_sold_one_waiting
            = Ok ({| pnr := "PNRAAAAAA1"; b_user_id := 2; b_train_id := 1;
                     b_passenger := Scenario.traveller "Asha"; seat_number := 1;
                     booking_status := confirmed |}, t).
Proof.
  eexists.
  apply (deleted_train_hides_its_bookings_from_pnr_lookup "PNRAAAAAA1" Scenario.admin
           Scenario.one_sold_one_waiting).
  - reflexivity.
  - simpl. repeat constructor. intros [].
  - reflexivity.
  - reflexivity.
Defined.

(** ** Start-up of the server *)

Section StartUp.
Import Sql Server ServerReads.

Lemma sync_trains_fold (rows : list train) (acc : list train * gmap Z (list waiting_data))
      tid :
  let loaded :=
    fold_left
      (fun (acc : list train * gmap Z (list waiting_data)) t =>
         (LinkedList.insert_at_end (fst acc) t,
          match snd acc !! t_id t with
          | Some _ => snd acc
          | None => <[t_id t := []]> (snd acc)
          end)) rows acc in
  fst loaded = fst acc ++ rows
  /\ default [] (snd loaded !! tid) = default [] (snd acc !! tid).
Proof.
  revert acc. induction rows as [|t rows IH]; intros acc; simpl.
  - split; [now rewrite app_nil_r | reflexivity].
  - destruct (IH (LinkedList.insert_at_end (fst acc) t,
                  match snd acc !! t_id t with
                  | Some _ => snd acc
                  | None => <[t_id t := []]> (snd acc)
                  end)) as [Hl Hq].
    split.
    + rewrite Hl. simpl. unfold LinkedList.insert_at_end. now rewrite <- app_assoc.
    + rewrite Hq. simpl.
      destruct (snd acc !! t_id t) eqn:E; [reflexivity|].
      destruct (Z.eq_dec (t_id t) tid) as [<- | Hne].
      * now rewrite lookup_insert_eq, E.
      * now rewrite lookup_insert_ne.
Qed.

Lemma sync_waiting_fold (rows : list waiting) (qs : gmap Z (list waiting_data)) tid :
  default []
    (fold_left
       (fun (qs : gmap Z (list waiting_data)) w =>
          <[w_train_id w :=
              Queue.enqueue (default [] (qs !! w_train_id w)) (waiting_dict w)]> qs)
       rows qs !! tid)
  = default [] (qs !! tid)
    ++ map waiting_dict (List.filter (fun w => w_train_id w =? tid) rows).
Proof.
  revert qs. induction rows as [|w rows IH]; intros qs; simpl.
  - now rewrite app_nil_r.
  - rewrite IH. destruct (Z.eqb_spec (w_train_id w) tid) as [<- | Hne].
    + rewrite lookup_insert_eq. simpl. unfold Queue.enqueue.
      now rewrite <- app_assoc.
    + now rewrite lookup_insert_ne.
Qed.

Lemma filter_length_insert_ordered (f : waiting -> bool) w (l : list waiting) :
  length (List.filter f (Terminal.insert_ordered w l)) = length (List.filter f (w :: l)).
Proof.
  induction l as [|x xs IH]; simpl; [reflexivity|].
  destruct (Terminal.ordered_before w x); simpl; [reflexivity|].
  simpl in IH. destruct (f x); simpl; rewrite IH; destruct (f w); reflexivity.
Qed.

Lemma filter_length_ordered (f : waiting -> bool) (l : list waiting) :
  length (List.filter f (Terminal.order_by_train_position l)) = length (List.filter f l).
Proof.
  unfold Terminal.order_by_train_position.
  induction l as [|x xs IH]; simpl; [reflexivity|].
  rewrite filter_length_insert_ordered. simpl. destruct (f x); simpl; now rewrite IH.
Qed.

Lemma queue_after_sync_waiting_lists s tid :
  queue_of tid (sync_waiting_lists s)
  = queue_of tid s
    ++ map waiting_dict
         (List.filter (fun w => w_train_id w =? tid)
            (Terminal.order_by_train_position (waiting_list (db s)))).
Proof. unfold queue_of, sync_waiting_lists; simpl. apply sync_waiting_fold. Qed.

Lemma queue_after_sync_trains s tid :
  queue_of tid (snd (sync_trains_to_linked_list s)) = queue_of tid s.
Proof.
  unfold queue_of, sync_trains_to_linked_list; simpl.
  apply (sync_trains_fold (order_by_id (trains (db s))) ([], waiting_queues s) tid).
Qed.

Lemma list_after_sync_trains s :
  trains_linked_list (snd (sync_trains_to_linked_list s)) = order_by_id (trains (db s)).
Proof.
  unfold sync_trains_to_linked_list; simpl.
  apply (sync_trains_fold (order_by_id (trains (db s))) ([], waiting_queues s) 0).
Qed.
End StartUp.

(** X17.  The waiting lists are loaded into the queues twice when the
    server starts: once by the calls at module level and once more by
    [startup_event], which rebuilds the linked list but keeps the queues it
    finds.  After the first load the queue of a train has one entry for each
    of its rows in [waiting_list]; after the start-up event it holds that
    sequence two times over.  The linked list is the [trains] table ordered
    by id both times, and the tables are not written. *)
Theorem startup_event_loads_waiting_lists_twice (d : database) (tid : Z) :
  let loaded := ServerReads.module_import d in
  let started := ServerReads.startup_event loaded in
  Server.queue_of tid loaded
  = map ServerReads.waiting_dict
        (List.filter (fun w => w_train_id w =? tid)
           (Terminal.order_by_train_position (waiting_list d)))
  /\ length (Server.queue_of tid loaded) = length (Sql.waiting_of tid d)
  /\ Server.queue_of tid started
     = Server.queue_of tid loaded ++ Server.queue_of tid loaded
  /\ Server.trains_linked_list loaded = ServerReads.order_by_id (trains d)
  /\ Server.trains_linked_list started = ServerReads.order_by_id (trains d)
  /\ Server.db started = d.
Proof.
  cbv zeta.
  assert (Server.queue_of tid (ServerReads.module_import d)
          = map ServerReads.waiting_dict
                (List.filter (fun w => w_train_id w =? tid)
                   (Terminal.order_by_train_position (waiting_list d)))) as Hloaded.
  { unfold ServerReads.module_import.
    rewrite queue_after_sync_waiting_lists, queue_after_sync_trains. reflexivity. }
  split; [exact Hloaded|]. split.
  { rewrite Hloaded, length_map. apply filter_length_ordered. }
  split.
  { unfold ServerReads.startup_event.
    rewrite queue_after_sync_waiting_lists, queue_after_sync_trains.
    f_equal. exact (eq_sym Hloaded). }
  split; [|split].
  - exact (list_after_sync_trains
             {| Server.db := d; Server.trains_linked_list := [];
                Server.waiting_queues := ∅; Server.passenger_cache := ∅ |}).
  - exact (list_after_sync_trains (ServerReads.module_import d)).
  - reflexivity.
Qed.

(** ** The summary report *)

Section Summary.
Import Sql Server ServerRuns ServerReads.






End Summary.



(** ** Reservations that fail, and the first one on a new train *)

(** X19.  A [create_booking] that does not answer with a booking or a
    waiting-list position has no effect at all, on the tables or in memory.
    It fails in three ways: 404 when the linked list does not hold the
    train, a [TypeError] when the list holds a train that has no row, and an
    [IntegrityError] when a seat is available but the generated PNR is
    already taken. *)
Theorem create_booking_fails_without_effect
    (bk : Server.BookingCreate) (u : Server.token) (p : string)
    (s s' : Server.state) (r : result booking_response)
    (Hcall : Server.create_booking bk u p s = (r, s'))
    (Hfail : forall x, r <> Ok x) :
  s' = s
  /\ ((r = HTTPException 404 "Train not found in LinkedList"
       /\ LinkedList.search (Server.trains_linked_list s) (Server.train_id bk)
                            Server.by_id = None)
      \/ (r = Unhandled TypeError
          /\ Sql.select_train (Server.train_id bk) (Server.db s) = None)
      \/ (r = Unhandled IntegrityError
          /\ Sql.pnr_taken p (Server.db s) = true
          /\ exists row, Sql.select_train (Server.train_id bk) (Server.db s) = Some row
                         /\ 0 < available_seats row)).
Proof.
  revert Hcall. unfold Server.create_booking.
  destruct (LinkedList.search _ _ _) as [node|] eqn:Es.
  - destruct (Sql.select_train _ _) as [row|] eqn:Er.
    + destruct (0 <? available_seats row) eqn:Eav.
      * unfold Sql.insert_booking. simpl.
        destruct (Sql.pnr_taken p (Server.db s)) eqn:Ep.
        -- intros [= <- <-]. split; [reflexivity|]. right. right.
           repeat split. exists row. split; [reflexivity | now apply Z.ltb_lt].
        -- intros [= <- _]. now destruct (Hfail (Confirmed p
                                   (total_seats row - available_seats row + 1))).
      * intros [= <- _].
        now destruct (Hfail (Waiting (Queue.size
                                        (Server.queue_of (Server.train_id bk) s) + 1))).
    + intros [= <- <-]. split; [reflexivity|]. right. left. now split.
  - intros [= <- <-]. split; [reflexivity|]. left. now split.
Qed.

Lemma create_booking_fails_without_effect_witness :
  snd (Server.create_booking (Scenario.seat_on 1 "Chitra") Scenario.carol "PNRAAAAAA1"
         Scenario.one_of_two_sold) = Scenario.one_of_two_sold.
Proof.
  apply (create_booking_fails_without_effect (Scenario.seat_on 1 "Chitra") Scenario.carol
           "PNRAAAAAA1" Scenario.one_of_two_sold _ (Unhandled IntegrityError)).
  - reflexivity.
  - discriminate.
Defined.

Section NewTrain.
Import Sql Server ServerRuns.

End NewTrain.



(** ** The terminal: every listed train has a queue *)

Section TerminalQueues.
Import Sql Terminal TerminalRuns.

Lemma lookup_in {A} (l : list A) (i : nat) (x : A) : l !! i = Some x -> In x l.
Proof.
  revert i. induction l as [|y ys IH]; intros [|i]; simpl; try discriminate.
  - intros [= ->]. now left.
  - intros H. right. exact (IH i H).
Qed.

Lemma in_list_insert {A} (l : list A) (i : nat) (x y : A) :
  In x (<[i := y]> l) -> In x l \/ x = y.
Proof.
  revert i. induction l as [|z zs IH]; intros [|i]; simpl; auto.
  - intros [<- | H]; auto.
  - intros [<- | H]; auto. destruct (IH i H); auto.
Qed.

Lemma in_update {A K} (l : list A) (key : K) (d x : A) (f : A -> K -> bool) :
  In x (fst (LinkedList.update l key d f)) -> In x l \/ x = d.
Proof.
  induction l as [|z zs IH]; simpl; auto.
  destruct (f z key); simpl.
  - intros [<- | H]; auto.
  - destruct (LinkedList.update zs key d f) as [zs' found]; simpl in *.
    intros [<- | H]; auto. destruct (IH H); auto.
Qed.

Lemma in_delete_by_value {A K} (l : list A) (key : K) (x : A) (f : A -> K -> bool) :
  In x (fst (LinkedList.delete_by_value l key f)) -> In x l.
Proof.
  induction l as [|z zs IH]; simpl; auto.
  destruct (f z key); simpl; auto.
  destruct (LinkedList.delete_by_value zs key f) as [zs' found]; simpl in *.
  intros [<- | H]; auto.
Qed.

Lemma load_trains_fold (rows : list train)
      (acc : list train * gmap Z (list waiting_data)) :
  let loaded :=
    fold_left
      (fun acc t => (LinkedList.insert_at_end (fst acc) t, <[t_id t := []]> (snd acc)))
      rows acc in
  fst loaded = fst acc ++ rows
  /\ forall k, is_Some (snd acc !! k) \/ In k (map t_id rows) -> is_Some (snd loaded !! k).
Proof.
  revert acc. induction rows as [|t rows IH]; intros acc; simpl.
  - split; [now rewrite app_nil_r|]. intros k [H | []]. exact H.
  - destruct (IH (LinkedList.insert_at_end (fst acc) t, <[t_id t := []]> (snd acc)))
      as [Hl Hq].
    split.
    + rewrite Hl. simpl. unfold LinkedList.insert_at_end. now rewrite <- app_assoc.
    + intros k Hk. apply Hq. simpl.
      destruct (Z.eq_dec (t_id t) k) as [<- | Hne].
      * left. rewrite lookup_insert_eq. eauto.
      * destruct Hk as [Hk | [Hk | Hk]]; [| contradiction | now right].
        left. now rewrite lookup_insert_ne.
Qed.

Lemma load_waiting_fold (rows : list waiting) (qs : gmap Z (list waiting_data)) k :
  is_Some (qs !! k) ->
  is_Some
    (fold_left
       (fun (qs : gmap Z (list waiting_data)) w =>
          match qs !! w_train_id w with
          | Some queue =>
              <[w_train_id w :=
                  Queue.enqueue queue
                    {| wd_train_id := w_train_id w; wd_passenger := w_passenger w;
                       wd_position := position w |}]> qs
          | None => qs
          end) rows qs !! k).
Proof.
  revert qs. induction rows as [|w rows IH]; intros qs Hk; simpl; [exact Hk|].
  apply IH. destruct (qs !! w_train_id w) eqn:E; [|exact Hk].
  destruct (Z.eq_dec (w_train_id w) k) as [<- | Hne].
  - rewrite lookup_insert_eq. eauto.
  - now rewrite lookup_insert_ne.
Qed.

Lemma load_data_list d : trains_list (load_data d) = trains d.
Proof.
  unfold load_data; simpl.
  exact (proj1 (load_trains_fold (trains d) ([], ∅))).
Qed.

Lemma load_data_queues d : every_node_has_queue (load_data d).
Proof.
  intros t Hin. rewrite load_data_list in Hin.
  unfold load_data; simpl. apply load_waiting_fold.
  apply (proj2 (load_trains_fold (trains d) ([], ∅))). right. now apply in_map.
Qed.

Lemma keys_kept_by_insert (qs : gmap Z (list waiting_data)) k k' q :
  is_Some (qs !! k) -> is_Some (<[k' := q]> qs !! k).
Proof.
  intros H. destruct (Z.eq_dec k' k) as [<- | Hne].
  - rewrite lookup_insert_eq. eauto.
  - now rewrite lookup_insert_ne.
Qed.

Lemma every_node_has_queue_step a s :
  every_node_has_queue s -> every_node_has_queue (perform a s).
Proof.
  intros H. destruct a as [number name total | number | choice psg p u | p np u]; simpl.
  - unfold add_train, insert_train.
    destruct (train_number_taken _ _); [exact H|]. simpl.
    intros t Hin. simpl in Hin. unfold LinkedList.insert_at_end in Hin.
    apply in_app_or in Hin as [Hin | [<- | []]]; simpl.
    + apply keys_kept_by_insert. now apply H.
    + rewrite lookup_insert_eq. eauto.
  - unfold delete_train. destruct (existsb _ _); [|exact H].
    intros t Hin. simpl in *. apply in_delete_by_value in Hin. now apply H.
  - unfold book_ticket, LinkedList.get_all.
    destruct (trains_list s) as [|x xs] eqn:El; [exact H|]. rewrite <- El in *.
    destruct ((choice <? 1) || _); [exact H|].
    destruct (trains_list s !! Z.to_nat (choice - 1)) as [train|] eqn:En; [|exact H].
    apply lookup_in in En.
    destruct (select_train _ _) as [row|]; [|exact H].
    destruct (0 <? available_seats row).
    + unfold insert_booking. destruct (pnr_taken _ _); [exact H|].
      intros t Hin. simpl in *.
      apply in_update in Hin as [Hin | ->].
      * apply in_list_insert in Hin as [Hin | ->]; [now apply H|].
        simpl. now apply H.
      * simpl. now apply H.
    + destruct (waiting_queues s !! t_id train) eqn:Eq; [|exact H].
      intros t Hin. simpl in *. apply keys_kept_by_insert. now apply H.
  - unfold cancel_ticket.
    destruct (select_booking_of _ _ _) as [b|]; [|exact H].
    destruct (status_eqb _ _); [exact H|].
    destruct (waiting_queues s !! b_train_id b) as [[|first rest]|] eqn:Eq; simpl.
    + exact H.
    + unfold insert_booking. destruct (pnr_taken _ _); simpl;
        intros t Hin; simpl in *; apply keys_kept_by_insert; now apply H.
    + exact H.
Qed.

Lemma reachable_every_node_has_queue s :
  reachable s -> every_node_has_queue s.
Proof.
  induction 1 as [d | s a _ IH].
  - apply load_data_queues.
  - now apply every_node_has_queue_step.
Qed.
End TerminalQueues.

(** X21.  [load_data] copies the rows of [trains] into the list in table
    order and gives every one of them a queue; adding and deleting trains,
    booking and cancelling keep a queue for every train in the list.  So, in
    every state of a terminal, the lookup [self.waiting_queues[train['id']]]
    of [book_ticket] finds its key: [book_ticket] never fails with a
    [KeyError]. *)
Theorem terminal_book_ticket_always_finds_the_queue
    (s : Terminal.state) (choice : Z) (psg : passenger) (p : string) (u : Terminal.user)
    (Hreach : TerminalRuns.reachable s) :
  every_node_has_queue s
  /\ fst (Terminal.book_ticket choice psg p u s) <> Unhandled KeyError
  /\ forall d, Terminal.trains_list (Terminal.load_data d) = trains d.
Proof.
  pose proof (reachable_every_node_has_queue s Hreach) as H.
  split; [exact H|]. split; [|exact load_data_list].
  unfold Terminal.book_ticket, LinkedList.get_all.
  destruct (Terminal.trains_list s) as [|x xs] eqn:El; [discriminate|].
  rewrite <- El in *.
  destruct ((choice <? 1) || _); [discriminate|].
  destruct (Terminal.trains_list s !! Z.to_nat (choice - 1)) as [train|] eqn:En;
    [|discriminate].
  apply lookup_in in En.
  destruct (Sql.select_train _ _) as [row|]; [|discriminate].
  destruct (0 <? available_seats row).
  - destruct (Sql.insert_booking _ _); discriminate.
  - destruct (H train En) as [q ->]. discriminate.
Qed.

Lemma terminal_book_ticket_always_finds_the_queue_witness :
  is_Some (Terminal.waiting_queues TerminalScenario.two_sold !! 1)
  /\ fst (Terminal.book_ticket 1 (Scenario.traveller "Chitra") "PNRCCCCCC3"
            TerminalScenario.alice TerminalScenario.two_sold)
     = Ok (Terminal.AddedToWaitingList 1).
Proof.
  destruct (terminal_book_ticket_always_finds_the_queue TerminalScenario.two_sold
              1 (Scenario.traveller "Chitra") "PNRCCCCCC3" TerminalScenario.alice)
    as (H & _ & _).
  - apply TerminalRuns.reachable_loaded.
  - split; [|reflexivity].
    apply (H {| t_id := 1; train_number := "12001"; train_name := "Express";
                total_seats := 2; available_seats := 0 |}).
    simpl. now left.
Defined.

(** ** The terminal: edges of cancelling and booking *)

Section TerminalEdges.
Import Sql Terminal.

Lemma find_own_after_cancel p uid (l extra : list booking) b :
  List.find (fun b => String.eqb (pnr b) p && (b_user_id b =? uid)) l = Some b ->
  List.find (fun b => String.eqb (pnr b) p && (b_user_id b =? uid))
    (map (fun b => if String.eqb (pnr b) p then set_status b cancelled else b) l ++ extra)
  = Some (set_status b cancelled).
Proof.
  induction l as [|x xs IH]; simpl; [discriminate|].
  destruct (String.eqb (pnr x) p) eqn:E; simpl.
  - rewrite E; simpl. destruct (b_user_id x =? uid); [now intros [= ->] | exact IH].
  - rewrite E; simpl. exact IH.
Qed.
End TerminalEdges.

(** X22.  [cancel_ticket] handles a train without a queue by doing nothing
    more: when the dictionary of queues has no key for the train of a
    confirmed booking, the booking is marked cancelled and committed, but
    the seat is not given back to the train, nobody is promoted and nothing
    is printed. *)
Theorem cancel_ticket_without_queue_loses_the_seat
    (p np : string) (u : Terminal.user) (s : Terminal.state) (b : booking)
    (Hfound : Sql.select_booking_of p (Terminal.u_id u) (Terminal.db s) = Some b)
    (Hactive : booking_status b = confirmed)
    (Hnokey : Terminal.waiting_queues s !! b_train_id b = None) :
  exists s',
    Terminal.cancel_ticket p np u s = (Ok Terminal.NothingPrinted, s')
    /\ Sql.select_booking_of p (Terminal.u_id u) (Terminal.db s')
       = Some (Sql.set_status b cancelled)
    /\ trains (Terminal.db s') = trains (Terminal.db s)
    /\ waiting_list (Terminal.db s') = waiting_list (Terminal.db s)
    /\ length (bookings (Terminal.db s')) = length (bookings (Terminal.db s))
    /\ Terminal.waiting_queues s' = Terminal.waiting_queues s
    /\ Terminal.trains_list s' = Terminal.trains_list s.
Proof.
  unfold Terminal.cancel_ticket. rewrite Hfound, Hactive, Hnokey. simpl.
  eexists. split; [reflexivity|]. simpl. repeat split.
  - unfold Sql.select_booking_of; simpl.
    rewrite <- (app_nil_r (map _ _)). now apply find_own_after_cancel.
  - apply length_map.
Qed.

Lemma cancel_ticket_without_queue_loses_the_seat_witness :
  exists s',
    Terminal.cancel_ticket "PNRAAAAAA1" "PNRXXXXXX0" TerminalScenario.alice
      TerminalScenario.two_sold_no_queue = (Ok Terminal.NothingPrinted, s')
    /\ map available_seats (trains (Terminal.db s')) = [0].
Proof.
  destruct (cancel_ticket_without_queue_loses_the_seat "PNRAAAAAA1" "PNRXXXXXX0"
              TerminalScenario.alice TerminalScenario.two_sold_no_queue
              {| pnr := "PNRAAAAAA1"; b_user_id := 2; b_train_id := 1;
                 b_passenger := Scenario.traveller "Asha"; seat_number := 1;
                 booking_status := confirmed |})
    as (s' & Hs & _ & Ht & _).
  - reflexivity.
  - reflexivity.
  - reflexivity.
  - exists s'. split; [exact Hs|]. rewrite Ht. reflexivity.
Defined.

(** X23.  In the terminal too a ticket is cancelled once: after a
    [cancel_ticket] that found the caller's confirmed booking, whatever
    branch it took, the same user's next [cancel_ticket] for that PNR prints
    "Booking already cancelled" and changes nothing. *)
Theorem ticket_is_cancelled_only_once
    (p np np' : string) (u : Terminal.user) (s s' : Terminal.state) (b : booking)
    (out : Terminal.cancel_output)
    (Hfound : Sql.select_booking_of p (Terminal.u_id u) (Terminal.db s) = Some b)
    (Hactive : booking_status b = confirmed)
    (Hfirst : Terminal.cancel_ticket p np u s = (Ok out, s')) :
  Terminal.cancel_ticket p np' u s' = (Ok Terminal.AlreadyCancelled, s').
Proof.
  assert (Sql.select_booking_of p (Terminal.u_id u) (Terminal.db s')
          = Some (Sql.set_status b cancelled)) as Hafter.
  { revert Hfirst. unfold Terminal.cancel_ticket. rewrite Hfound, Hactive. simpl.
    destruct (Terminal.waiting_queues s !! b_train_id b) as [[|first rest]|]; simpl.
    - intros [= _ <-]. unfold Sql.select_booking_of; simpl.
      rewrite <- (app_nil_r (map _ _)). now apply find_own_after_cancel.
    - unfold Sql.insert_booking. destruct (Sql.pnr_taken _ _); [discriminate|].
      intros [= _ <-]. unfold Sql.select_booking_of; simpl.
      now apply find_own_after_cancel.
    - intros [= _ <-]. unfold Sql.select_booking_of; simpl.
      rewrite <- (app_nil_r (map _ _)). now apply find_own_after_cancel. }
  unfold Terminal.cancel_ticket. now rewrite Hafter.
Qed.

Lemma ticket_is_cancelled_only_once_witness :
  exists s',
    Terminal.cancel_ticket "PNRAAAAAA1" "PNRXXXXXX0" TerminalScenario.alice
      TerminalScenario.two_sold = (Ok Terminal.TicketCancelled, s')
    /\ Terminal.cancel_ticket "PNRAAAAAA1" "PNRYYYYYY9" TerminalScenario.alice s'
       = (Ok Terminal.AlreadyCancelled, s').
Proof.
  eexists. split; [reflexivity|].
  apply (ticket_is_cancelled_only_once "PNRAAAAAA1" "PNRXXXXXX0" "PNRYYYYYY9"
           TerminalScenario.alice TerminalScenario.two_sold _
           {| pnr := "PNRAAAAAA1"; b_user_id := 2; b_train_id := 1;
              b_passenger := Scenario.traveller "Asha"; seat_number := 1;
              booking_status := confirmed |} Terminal.TicketCancelled).
  - reflexivity.
  - reflexivity.
  - reflexivity.
Defined.

(** X24.  [book_ticket] accepts only a number that names a train of the
    list: with an empty list it reports that no trains are available, and
    with a choice below 1 or above the length of the list it reports an
    invalid selection; in both cases nothing is read from or written to the
    tables and the state is unchanged. *)
Theorem book_ticket_rejects_choice_outside_the_list
    (choice : Z) (psg : passenger) (p : string) (u : Terminal.user) (s : Terminal.state)
    (Hout : choice < 1 \/ Z.of_nat (length (Terminal.trains_list s)) < choice) :
  Terminal.book_ticket choice psg p u s
  = (Ok (if Nat.eqb (length (Terminal.trains_list s)) 0
         then Terminal.NoTrainsAvailable else Terminal.InvalidSelection), s).
Proof.
  unfold Terminal.book_ticket, LinkedList.get_all.
  destruct (Terminal.trains_list s) as [|x xs]; [reflexivity|].
  assert ((choice <? 1) || (Z.of_nat (length (x :: xs)) <? choice) = true) as ->.
  { apply orb_true_iff. destruct Hout as [H | H];
      [left; now apply Z.ltb_lt | right; now apply Z.ltb_lt]. }
  reflexivity.
Qed.

Lemma book_ticket_rejects_choice_outside_the_list_witness :
  Terminal.book_ticket 2 (Scenario.traveller "Chitra") "PNRCCCCCC3"
    TerminalScenario.alice TerminalScenario.two_sold
  = (Ok Terminal.InvalidSelection, TerminalScenario.two_sold).
Proof.
  apply (book_ticket_rejects_choice_outside_the_list 2 (Scenario.traveller "Chitra")
           "PNRCCCCCC3" TerminalScenario.alice TerminalScenario.two_sold).
  right. simpl. lia.
Defined.

(** ** Listings that go stale *)

Lemma cancel_ticket_keeps_list p np u s :
  Terminal.trains_list (snd (Terminal.cancel_ticket p np u s)) = Terminal.trains_list s.
Proof.
  unfold Terminal.cancel_ticket.
  destruct (Sql.select_booking_of _ _ _) as [b|]; [|reflexivity].
  destruct (status_eqb _ _); [reflexivity|].
  destruct (Terminal.waiting_queues s !! b_train_id b) as [[|first rest]|];
    simpl; try reflexivity.
  destruct (Sql.insert_booking _ _); reflexivity.
Qed.

(** X25.  The terminal's [cancel_ticket] never writes to the list of
    trains.  When a release gives a seat back, the row of the train in the
    table gets [available_seats + 1] while the node of the list, which the
    train menus print, keeps the old count. *)
Theorem terminal_release_leaves_the_list_stale
    (p np : string) (u : Terminal.user) (s : Terminal.state) (b : booking) (t : train)
    (Hfound : Sql.select_booking_of p (Terminal.u_id u) (Terminal.db s) = Some b)
    (Hactive : booking_status b = confirmed)
    (Hempty : Terminal.waiting_queues s !! b_train_id b = Some [])
    (Hrow : Sql.select_train (b_train_id b) (Terminal.db s) = Some t)
    (Hnode : LinkedList.search (Terminal.trains_list s) (b_train_id b) Terminal.by_id
             = Some t) :
  exists s',
    Terminal.cancel_ticket p np u s = (Ok Terminal.TicketCancelled, s')
    /\ available_seats <$> Sql.select_train (b_train_id b) (Terminal.db s')
       = Some (available_seats t + 1)
    /\ available_seats
         <$> LinkedList.search (Terminal.trains_list s') (b_train_id b) Terminal.by_id
       = Some (available_seats t)
    /\ forall p' np' u' s0,
         Terminal.trains_list (snd (Terminal.cancel_ticket p' np' u' s0))
         = Terminal.trains_list s0.
Proof.
  eexists. split; [apply (cancel_ticket_release p np u s b); assumption|].
  cbn [Terminal.db Terminal.trains_list]. split; [|split].
  - rewrite (select_train_add_available _ _ _ t); [reflexivity | exact Hrow].
  - now rewrite Hnode.
  - intros p' np' u' s0. apply cancel_ticket_keeps_list.
Qed.

Lemma terminal_release_leaves_the_list_stale_witness :
  exists s',
    Terminal.cancel_ticket "PNRAAAAAA1" "PNRXXXXXX0" TerminalScenario.alice
      TerminalScenario.two_sold = (Ok Terminal.TicketCancelled, s')
    /\ map available_seats (trains (Terminal.db s')) = [1]
    /\ map available_seats (Terminal.trains_list s') = [0].
Proof.
  destruct (terminal_release_leaves_the_list_stale "PNRAAAAAA1" "PNRXXXXXX0"
              TerminalScenario.alice TerminalScenario.two_sold
              {| pnr := "PNRAAAAAA1"; b_user_id := 2; b_train_id := 1;
                 b_passenger := Scenario.traveller "Asha"; seat_number := 1;
                 booking_status := confirmed |}
              {| t_id := 1; train_number := "12001"; train_name := "Express";
                 total_seats := 2; available_seats := 0 |})
    as (s' & Hs & _).
  - reflexivity.
  - reflexivity.
  - reflexivity.
  - reflexivity.
  - reflexivity.
  - exists s'. split; [exact Hs|]. injection Hs as <-. split; reflexivity.
Defined.

(** X26.  [update_train] writes to the table only.  Whatever the update and
    whoever the caller, the linked list and the queues are as before, so
    [GET /trains] keeps listing the seat counts from before the update. *)
Theorem update_train_leaves_the_listing_stale
    (tid : Z) (upd : Server.TrainUpdate) (u : Server.token) (s : Server.state) :
  Server.trains_linked_list (snd (Server.update_train tid upd u s))
  = Server.trains_linked_list s
  /\ Server.waiting_queues (snd (Server.update_train tid upd u s))
     = Server.waiting_queues s
  /\ ServerReads.get_all_trains (snd (Server.update_train tid upd u s))
     = ServerReads.get_all_trains s.
Proof.
  assert (Server.trains_linked_list (snd (Server.update_train tid upd u s))
          = Server.trains_linked_list s
          /\ Server.waiting_queues (snd (Server.update_train tid upd u s))
             = Server.waiting_queues s) as [Hl Hq].
  { unfold Server.update_train.
    destruct (negb _); [now split|].
    destruct (Sql.select_train _ _) as [t|]; [|now split].
    destruct (match Server.tu_train_name upd with
              | Some n => if String.eqb n "" then None else Some n
              | None => None
              end);
      destruct (match Server.tu_total_seats upd with
                | Some n => if n =? 0 then None else Some (n, n - total_seats t)
                | None => None
                end); now split. }
  split; [exact Hl|]. split; [exact Hq|].
  unfold ServerReads.get_all_trains. now rewrite Hl, Hq.
Qed.
